(** * ad_dns: reconciliation of one AD DNS record through samba-tool

    A shallow embedding of [ad_dns.py] (class [SambaToolDNS] and [main])
    and the properties of its query parser, its apply step and its
    reconciliation logic. *)

From Stdlib Require Import String Ascii List ZArith Bool Arith Lia DecimalString.
Import ListNotations.
Local Open Scope string_scope.
Local Open Scope list_scope.

(** ** Text: the Python string operations the module uses *)

Module Text.

(** The line feed, the only character [.] refuses in a Python pattern. *)
Definition LF : ascii := "010"%char.
Definition nl : string := String LF EmptyString.

(** [needle in hay] on Python strings: [needle] occurs as a substring. *)
Fixpoint contains (needle hay : string) : bool :=
  if String.prefix needle hay then true
  else match hay with
       | EmptyString => false
       | String _ hay' => contains needle hay'
       end.

(** [x in words] on a Python list of strings. *)
Definition mem (x : string) (words : list string) : bool :=
  existsb (String.eqb x) words.

(** Characters of a string, a predicate on all of them. *)
Fixpoint all_chars (p : ascii -> bool) (s : string) : bool :=
  match s with
  | EmptyString => true
  | String c s' => p c && all_chars p s'
  end.

(** [s.split(LF)]: the lines of a text, never an empty list. *)
Fixpoint split_lines (s : string) : list string :=
  match s with
  | EmptyString => [EmptyString]
  | String c s' =>
      if Ascii.eqb c LF then EmptyString :: split_lines s'
      else match split_lines s' with
           | l :: ls => String c l :: ls
           | [] => [String c EmptyString]
           end
  end.

End Text.

(** ** Re: the fragment of Python's [re] that the query pattern uses

    Literal characters and capturing groups around one greedy repetition
    of a character set, matched by backtracking, longest repetition
    first, as [re] does. *)

Module Re.

Inductive atom : Type :=
| Lit (c : ascii)                    (* the character itself *)
| GroupStar (cls : ascii -> bool)    (* ( set * ) *)
| GroupPlus (cls : ascii -> bool).   (* ( set + ) *)

Definition regex := list atom.

(** The groups of one match, in the order of their opening parentheses. *)
Definition captures := list string.

Section Greedy.
Variable cls : ascii -> bool.
Variable k : string -> option (captures * string).

Definition stop (s : string) : option (string * (captures * string)) :=
  match k s with
  | Some r => Some (EmptyString, r)
  | None => None
  end.

(** [set*] followed by [k]: take as many characters as the set allows,
    give one back each time the rest of the pattern fails. *)
Fixpoint many (s : string) : option (string * (captures * string)) :=
  match s with
  | String c s' =>
      if cls c then
        match many s' with
        | Some (g, r) => Some (String c g, r)
        | None => stop s
        end
      else stop s
  | EmptyString => stop s
  end.

(** [set+] followed by [k]: one character of the set, then [set*]. *)
Definition many1 (s : string) : option (string * (captures * string)) :=
  match s with
  | String c s' =>
      if cls c then
        match many s' with
        | Some (g, r) => Some (String c g, r)
        | None => None
        end
      else None
  | EmptyString => None
  end.
End Greedy.

(** Match the pattern at the head of [s]: the groups and the text left
    after the match, or [None]. *)
Fixpoint match_here (p : regex) (s : string) : option (captures * string) :=
  match p with
  | [] => Some ([], s)
  | Lit c :: p' =>
      match s with
      | String c' s' => if Ascii.eqb c c' then match_here p' s' else None
      | EmptyString => None
      end
  | GroupStar cls :: p' =>
      match many cls (match_here p') s with
      | Some (g, (caps, rest)) => Some (g :: caps, rest)
      | None => None
      end
  | GroupPlus cls :: p' =>
      match many1 cls (match_here p') s with
      | Some (g, (caps, rest)) => Some (g :: caps, rest)
      | None => None
      end
  end.

(** [re.findall]: scan left to right; a match is recorded and the scan
    resumes where it ended, a position without a match is passed over.
    [skip] counts the characters of the last match still to pass. *)
Fixpoint findall_from (p : regex) (skip : nat) (s : string) : list captures :=
  match skip with
  | S skip' =>
      match s with
      | String _ s' => findall_from p skip' s'
      | EmptyString => []
      end
  | O =>
      match s with
      | String _ s' =>
          match match_here p s with
          | Some (caps, rest) =>
              caps :: findall_from p (String.length s' - String.length rest) s'
          | None => findall_from p O s'
          end
      | EmptyString =>
          match match_here p s with
          | Some (caps, _) => [caps]
          | None => []
          end
      end
  end.

Definition findall (p : regex) (s : string) : list captures :=
  findall_from p O s.

(** [re.search(p, s) is not None]: the pattern matches somewhere in [s]. *)
Fixpoint search (p : regex) (s : string) : bool :=
  match match_here p s with
  | Some _ => true
  | None =>
      match s with
      | String _ s' => search p s'
      | EmptyString => false
      end
  end.

(** An atom that cannot take a line feed. *)
Definition refuses_LF (a : atom) : bool :=
  match a with
  | Lit c => negb (Ascii.eqb c Text.LF)
  | GroupStar cls | GroupPlus cls => negb (cls Text.LF)
  end.

(** The text left after a match, with [tail] put back behind it. *)
Definition extend (tail : string) (o : option (captures * string))
  : option (captures * string) :=
  match o with
  | Some (caps, rest) => Some (caps, (rest ++ tail)%string)
  | None => None
  end.

Definition extend_group (tail : string)
           (o : option (string * (captures * string)))
  : option (string * (captures * string)) :=
  match o with
  | Some (g, (caps, rest)) => Some (g, (caps, (rest ++ tail)%string))
  | None => None
  end.

(** The text ends here or goes on with a line feed. *)
Definition at_line_end (tail : string) : bool :=
  match tail with
  | EmptyString => true
  | String c _ => Ascii.eqb c Text.LF
  end.

(** The text ends here or goes on with a character outside the set. *)
Definition next_refused (cls : ascii -> bool) (u : string) : bool :=
  match u with
  | EmptyString => true
  | String c _ => negb (cls c)
  end.

(** A literal piece of a pattern. *)
Definition lits (s : string) : regex := map Lit (list_ascii_of_string s).

(** The set [[0-9.]]. *)
Definition digit_or_dot (c : ascii) : bool :=
  (Nat.leb 48 (nat_of_ascii c) && Nat.leb (nat_of_ascii c) 57)
  || Ascii.eqb c "."%char.

(** The set of [.]: every character but the line feed. *)
Definition any_char (c : ascii) : bool := negb (Ascii.eqb c Text.LF).

End Re.

(** ** The module's data *)

(** [type], one of the [choices] of the argument spec. *)
Inductive RecordType : Type := A | AAAA | PTR | CNAME | NS | MX | SRV | TXT.

Definition type_str (t : RecordType) : string :=
  match t with
  | A => "A" | AAAA => "AAAA" | PTR => "PTR" | CNAME => "CNAME"
  | NS => "NS" | MX => "MX" | SRV => "SRV" | TXT => "TXT"
  end.

(** [state], one of the [choices] of the argument spec. *)
Inductive State : Type := present | absent.

(** [module.params], as [AnsibleModule] hands them over once it has
    checked them against the argument spec. *)
Record Params : Type := {
  server : string;
  username : string;
  password : string;
  zone : string;
  record : string;
  value : string;
  type : RecordType;
  state : State
}.

(** What the module reads of its [AnsibleModule]: the parameters, the
    check-mode flag and the executable [get_bin_path] finds, if any. *)
Record AnsibleModule : Type := {
  params : Params;
  check_mode : bool;
  get_bin_path : string -> option string
}.

(** What [run_command] returns: exit code, stdout, stderr. The query
    tests [stdout] against [None], so it is optional here. *)
Definition Response : Type := (Z * option string * string)%type.

(** The keyword arguments of [exit_json] and [fail_json]; a keyword the
    call does not pass is [None]. *)
Record Kwargs : Type := {
  changed : option bool;
  ok : option bool;
  msg : string;
  samba_tool_stderr : option string;
  samba_tool_rc : option Z
}.

Definition kw_msg (m : string) : Kwargs :=
  {| changed := None; ok := None; msg := m;
     samba_tool_stderr := None; samba_tool_rc := None |}.
Definition kw_ok (m : string) : Kwargs :=
  {| changed := None; ok := Some true; msg := m;
     samba_tool_stderr := None; samba_tool_rc := None |}.
Definition kw_changed (b : bool) (m : string) : Kwargs :=
  {| changed := Some b; ok := None; msg := m;
     samba_tool_stderr := None; samba_tool_rc := None |}.
Definition kw_failed (m err : string) (rc : Z) : Kwargs :=
  {| changed := None; ok := None; msg := m;
     samba_tool_stderr := Some err; samba_tool_rc := Some rc |}.

(** How a run ends: both calls leave the process and never return. *)
Inductive Exit : Type :=
| ExitJson (kw : Kwargs)
| FailJson (kw : Kwargs).

(** The result is reported as changed only by [exit_json(changed=True)]. *)
Definition is_changed (e : Exit) : bool :=
  match e with
  | ExitJson kw => match changed kw with Some true => true | _ => false end
  | FailJson _ => false
  end.

Definition is_unchanged (e : Exit) : bool :=
  match e with
  | ExitJson kw => match changed kw with Some true => false | _ => true end
  | FailJson _ => false
  end.

(** One tuple of [re.findall] with the four groups of the pattern:
    value, flags, serial, ttl. *)
Definition ExistingRecord : Type := (string * string * string * string)%type.

(** [rec[0]] *)
Definition item0 (rec : ExistingRecord) : string :=
  let '(v, _, _, _) := rec in v.

Definition tuple_of (caps : Re.captures) : ExistingRecord :=
  (nth 0 caps "", nth 1 caps "", nth 2 caps "", nth 3 caps "").

(** The pattern of line 182, built by [format] from the type: the type's
    name, a colon and a space, a group of one or more characters of the
    set 0-9 and dot, then the literal pieces around three groups of any
    run of characters: flags, serial and ttl. *)
Definition record_pattern (ty : RecordType) : Re.regex :=
  Re.lits (type_str ty) ++ Re.lits ": " ++ [Re.GroupPlus Re.digit_or_dot]
  ++ Re.lits " (flags=" ++ [Re.GroupStar Re.any_char]
  ++ Re.lits ", serial=" ++ [Re.GroupStar Re.any_char]
  ++ Re.lits ", ttl=" ++ [Re.GroupStar Re.any_char]
  ++ Re.lits ")".

(** A line of the layout [TYPE: VALUE (flags=F, serial=S, ttl=T)], with
    whatever text before and after it and whatever the four fields are. *)
Definition has_shape (ty : RecordType) (line : string) : Prop :=
  exists pre v f sr t post,
    line = (pre ++ type_str ty ++ ": " ++ v ++ " (flags=" ++ f ++ ", serial="
            ++ sr ++ ", ttl=" ++ t ++ ")" ++ post)%string.

(** [re.findall(pattern, stdout)] of line 182. *)
Definition parse_records (ty : RecordType) (stdout : string)
  : list ExistingRecord :=
  map tuple_of (Re.findall (record_pattern ty) stdout).

Definition ZONE_DOES_NOT_EXIST : string := "WERR_DNS_ERROR_ZONE_DOES_NOT_EXIST".
Definition NAME_DOES_NOT_EXIST : string := "WERR_DNS_ERROR_NAME_DOES_NOT_EXIST".
Definition RECORD_ALREADY_EXISTS : string := "WERR_DNS_ERROR_RECORD_ALREADY_EXISTS".

(** ** Runs: the commands issued so far, the outside world, early exit *)

(** The state a run threads: the world the tool acts on and the word
    lists of the commands run so far, oldest first. *)
Record Sys (World : Type) : Type := {
  world : World;
  trace : list (list string)
}.
Arguments world {World} _.
Arguments trace {World} _.

Inductive Res (T : Type) : Type :=
| Ret (a : T)
| Stop (e : Exit).
Arguments Ret {T} _.
Arguments Stop {T} _.

Definition M (World T : Type) : Type := Sys World -> Res T * Sys World.

Definition ret {World T} (a : T) : M World T := fun s => (Ret a, s).

Definition bind {World T U} (c : M World T) (k : T -> M World U) : M World U :=
  fun s =>
    match c s with
    | (Ret a, s') => k a s'
    | (Stop e, s') => (Stop e, s')
    end.

Declare Scope run_scope.
Delimit Scope run_scope with run.
Notation "x <- c ;; k" := (bind c (fun x => k))
  (at level 61, c at next level, right associativity) : run_scope.
Notation "' pat <- c ;; k" := (bind c (fun x => match x with pat => k end))
  (at level 61, pat pattern, c at next level, right associativity) : run_scope.
Notation "c ;; k" := (bind c (fun _ => k))
  (at level 61, right associativity) : run_scope.
Local Open Scope run_scope.

Definition exit_json {World T} (kw : Kwargs) : M World T :=
  fun s => (Stop (ExitJson kw), s).

Definition fail_json {World T} (kw : Kwargs) : M World T :=
  fun s => (Stop (FailJson kw), s).

(** [if c: body] *)
Definition when {World} (c : bool) (body : M World unit) : M World unit :=
  if c then body else ret tt.

(** [for x in l: body] *)
Fixpoint for_each {World T} (l : list T) (body : T -> M World unit)
  : M World unit :=
  match l with
  | [] => ret tt
  | x :: l' => body x ;; for_each l' body
  end.

(** Truth value of a Python list. *)
Definition nonempty {T} (l : list T) : bool :=
  match l with [] => false | _ :: _ => true end.

(** Truth value of a string or [None]. *)
Definition truthy (o : option string) : bool :=
  match o with
  | Some s => negb (String.eqb s "")
  | None => false
  end.

Definition is_not_None (o : option string) : bool :=
  match o with Some _ => true | None => false end.

(** The text of a value known not to be [None]. *)
Definition text_of (o : option string) : string :=
  match o with Some s => s | None => "" end.

(** ** class SambaToolDNS and main *)

(** The attributes [__init__] sets. *)
Record SambaToolDNS : Type := {
  self_module : AnsibleModule;
  smbtool : string;
  self_server : string;
  self_zone : string;
  cmdb : list string;
  cmdc : list string
}.

Section Program.
Context {World : Type}.

(** The external process: the tool, given the words of a command line
    and the world it acts on, answers and leaves a world. The module
    joins the words with spaces and hands the line to a shell; a tool
    that sees the joined line only is one of the tools ranged over here. *)
Variable tool : list string -> World -> Response * World.

(** [self.module.run_command(' '.join(cmd), use_unsafe_shell=True)] *)
Definition run_command (cmd : list string) : M World Response :=
  fun s =>
    let '(r, w') := tool cmd (world s) in
    (Ret r, {| world := w'; trace := trace s ++ [cmd] |}).

(** [SambaToolDNS.__init__]; [get_bin_path(..., required=True)] fails
    the module when the executable is not found (the wording of that
    failure is the framework's). *)
Definition SambaToolDNS_init (module : AnsibleModule)
  : M World SambaToolDNS :=
  match get_bin_path module "samba-tool" with
  | None => fail_json (kw_msg "Failed to find required executable samba-tool")
  | Some path =>
      ret {| self_module := module;
             smbtool := path;
             self_server := server (params module);
             self_zone := zone (params module);
             cmdb := [path; "dns"];
             cmdc := [("--username='" ++ username (params module) ++ "'")%string;
                      ("--password='" ++ password (params module) ++ "'")%string] |}
  end.

Definition query_cmd (self : SambaToolDNS) (record : string)
           (type : RecordType) : list string :=
  cmdb self ++ ["query"; self_server self; self_zone self; record;
                type_str type] ++ cmdc self.

Definition get_exist_dns (self : SambaToolDNS) (record : string)
           (type : RecordType) : M World (list ExistingRecord) :=
  let cmd := query_cmd self record type in
  '(rc, stdout, stderr) <- run_command cmd ;;
  when (Text.contains ZONE_DOES_NOT_EXIST stderr)
       (fail_json (kw_msg ("Zone " ++ self_zone self ++ " does not exists.")%string)) ;;
  if negb (rc =? 0)%Z || Text.contains NAME_DOES_NOT_EXIST stderr then
    ret []
  else if truthy stdout || is_not_None stdout then
    ret (parse_records type (text_of stdout))
  else
    ret [].

Definition manage_cmd (self : SambaToolDNS) (record value : string)
           (type : RecordType) (action : string) : list string :=
  cmdb self ++ [action; self_server self; self_zone self; record;
                type_str type; value] ++ cmdc self.

Definition manage_dns (self : SambaToolDNS) (record value : string)
           (type : RecordType) (action : string) : M World unit :=
  when (negb (Text.mem action ["add"; "delete"]))
       (fail_json (kw_msg "Wrong action for managing DNS record")) ;;
  let cmd := manage_cmd self record value type action in
  '(rc, stdout, stderr) <- run_command cmd ;;
  if String.eqb action "add" && negb (rc =? 0)%Z
     && Text.contains RECORD_ALREADY_EXISTS stderr then
    exit_json (kw_changed false "Rercord already present")
  else if negb (rc =? 0)%Z then
    fail_json (kw_failed ("Action " ++ action ++ " for record failed")%string stderr rc)
  else
    ret tt.

(** Lines 246 to 271 of [main]: what is done with the records found. *)
Definition main_reconcile (module : AnsibleModule) (st : SambaToolDNS)
           (exist_records : list ExistingRecord) : M World unit :=
  let record := record (params module) in
  let value := value (params module) in
  let type := type (params module) in
  match state (params module) with
  | present =>
      when (nonempty exist_records)
           (for_each exist_records (fun rec =>
              when (String.eqb (item0 rec) value)
                   (exit_json (kw_ok "Record already present")))) ;;
      when (negb (check_mode module))
           (manage_dns st record value type "add") ;;
      exit_json (kw_changed true "Record has been created")
  | absent =>
      if nonempty exist_records then
        if Text.mem value (map item0 exist_records) then
          when (negb (check_mode module))
               (manage_dns st record value type "delete") ;;
          exit_json (kw_changed true "Record has been deleted")
        else
          exit_json (kw_ok ("Record found with different value, but not with "
                            ++ value)%string)
      else
        exit_json (kw_ok "No such record found")
  end.

Definition main (module : AnsibleModule) : M World unit :=
  st <- SambaToolDNS_init module ;;
  exist_records <- get_exist_dns st (record (params module))
                                 (type (params module)) ;;
  main_reconcile module st exist_records.

End Program.

(** The commands of a trace that change the store: [add] and [delete]
    sit where [query] does, after the executable and [dns]. *)
Definition action_of (cmd : list string) : string := nth 2 cmd "".

Definition is_mutating (cmd : list string) : bool :=
  Text.mem (action_of cmd) ["add"; "delete"].

Definition is_query (cmd : list string) : bool :=
  String.eqb (action_of cmd) "query".

Definition mutations (tr : list (list string)) : list (list string) :=
  filter is_mutating tr.

Definition queries (tr : list (list string)) : list (list string) :=
  filter is_query tr.

(** The commands a run has added to the trace it started from. *)
Definition issued {World} (s s' : Sys World) : list (list string) :=
  skipn (List.length (trace s)) (trace s').

Definition rc_of (r : Response) : Z := let '(rc, _, _) := r in rc.

(** The same module, asked to run in check mode or not. *)
Definition with_check_mode (b : bool) (m : AnsibleModule) : AnsibleModule :=
  {| params := params m; check_mode := b; get_bin_path := get_bin_path m |}.

(** ** The store behind the tool

    The tool is outside the module. For the runs that follow one another
    it is taken to keep, for the record name under management, a list of
    values: [add] puts the value in, [delete] takes exactly that value
    out, [query] prints one line per value in the layout the comment of
    lines 176 to 181 shows. *)

Module Samba.

Definition Store : Type := list string.

Definition decimal (n : nat) : string :=
  DecimalString.NilEmpty.string_of_uint (Nat.to_uint n).

Definition header (n : nat) : string :=
  ("  Name=, Records=" ++ decimal n ++ ", Children=0")%string.

Definition line (tyword v : string) : string :=
  ("    " ++ tyword ++ ": " ++ v ++ " (flags=f0, serial=0, ttl=1800)")%string.

Fixpoint lines (tyword : string) (vs : Store) : string :=
  match vs with
  | [] => EmptyString
  | v :: vs' => (line tyword v ++ Text.nl ++ lines tyword vs')%string
  end.

Definition query_stdout (tyword : string) (vs : Store) : string :=
  (header (List.length vs) ++ Text.nl ++ lines tyword vs)%string.

Definition has (v : string) (vs : Store) : bool := Text.mem v vs.

Definition without (v : string) (vs : Store) : Store :=
  filter (fun x => negb (String.eqb x v)) vs.

Definition usage : Response := (255%Z, Some EmptyString, "Usage: samba-tool dns <subcommand>").

(** The words of a command are: executable, [dns], subcommand, server,
    zone, name, type, then the value for [add] and [delete]. *)
Definition tool (cmd : list string) (vs : Store) : Response * Store :=
  match cmd with
  | _ :: _ :: sub :: _ :: _ :: _ :: tyword :: rest =>
      if String.eqb sub "query" then
        match vs with
        | [] => ((255%Z, Some EmptyString,
                  "ERROR: Record or zone does not exist: WERR_DNS_ERROR_NAME_DOES_NOT_EXIST"),
                 vs)
        | _ :: _ => ((0%Z, Some (query_stdout tyword vs), EmptyString), vs)
        end
      else if String.eqb sub "add" then
        match rest with
        | v :: _ =>
            if has v vs then
              ((255%Z, Some EmptyString,
                "ERROR: Record already exists: WERR_DNS_ERROR_RECORD_ALREADY_EXISTS"),
               vs)
            else ((0%Z, Some "Record added successfully", EmptyString), vs ++ [v])
        | [] => (usage, vs)
        end
      else if String.eqb sub "delete" then
        match rest with
        | v :: _ =>
            if has v vs then
              ((0%Z, Some "Record deleted successfully", EmptyString), without v vs)
            else
              ((255%Z, Some EmptyString,
                "ERROR: Record does not exist: WERR_DNS_ERROR_RECORD_DOES_NOT_EXIST"),
               vs)
        | [] => (usage, vs)
        end
      else (usage, vs)
  | _ => (usage, vs)
  end.

(** A value the pattern of the query can read back: digits and dots, at
    least one. *)
Definition numeric (v : string) : bool :=
  Text.all_chars Re.digit_or_dot v && negb (String.eqb v EmptyString).

(** What the query reads back of a value the tool has printed. *)
Definition read_back (v : string) : ExistingRecord := (v, "f0", "0", "1800").

Definition no_colon (c : ascii) : bool := negb (Ascii.eqb c ":"%char).

(** The store already is what the desired state asks for. *)
Definition satisfied (st : State) (v : string) (vs : Store) : bool :=
  match st with
  | present => has v vs
  | absent => negb (has v vs)
  end.

(** The store a run leaves when the tool does what it is asked. *)
Definition settle (st : State) (v : string) (vs : Store) : Store :=
  match st with
  | present => if has v vs then vs else vs ++ [v]
  | absent => if has v vs then without v vs else vs
  end.

End Samba.

(** ** Sample inputs *)

Module Sample.

Definition www (st : State) (v : string) (ty : RecordType) : Params :=
  {| server := "dc01.example.com"; username := "admin.user";
     password := "admin.password"; zone := "example.com"; record := "www";
     value := v; type := ty; state := st |}.

Definition found (name : string) : option string :=
  if String.eqb name "samba-tool" then Some "/usr/bin/samba-tool" else None.

Definition module (st : State) (v : string) (ty : RecordType) (check : bool)
  : AnsibleModule :=
  {| params := www st v ty; check_mode := check; get_bin_path := found |}.

Definition st (m : AnsibleModule) : SambaToolDNS :=
  {| self_module := m;
     smbtool := "/usr/bin/samba-tool";
     self_server := server (params m);
     self_zone := zone (params m);
     cmdb := ["/usr/bin/samba-tool"; "dns"];
     cmdc := [("--username='" ++ username (params m) ++ "'")%string;
              ("--password='" ++ password (params m) ++ "'")%string] |}.

(** A tool that gives the same answer to every command. *)
Definition answering (r : Response) : list string -> unit -> Response * unit :=
  fun _ w => (r, w).

Definition start : Sys unit := {| world := tt; trace := [] |}.

Definition rec (v : string) : ExistingRecord := (v, "f0", "0", "1800").

End Sample.

(** ** Further notions for whole runs *)

(** The object [__init__] returns when [get_bin_path] gives [path]. *)
Definition built (module : AnsibleModule) (path : string) : SambaToolDNS :=
  {| self_module := module;
     smbtool := path;
     self_server := server (params module);
     self_zone := zone (params module);
     cmdb := [path; "dns"];
     cmdc := [("--username='" ++ username (params module) ++ "'")%string;
              ("--password='" ++ password (params module) ++ "'")%string] |}.

(** The action [main] passes to [manage_dns] for a state. *)
Definition action_for (st : State) : string :=
  match st with
  | present => "add"
  | absent => "delete"
  end.

(** The keywords a run on a store is expected to exit with. *)
Definition store_report (st : State) (v : string) (vs : Samba.Store) : Kwargs :=
  match st with
  | present =>
      if Samba.has v vs then kw_ok "Record already present"
      else kw_changed true "Record has been created"
  | absent =>
      match vs with
      | [] => kw_ok "No such record found"
      | _ :: _ =>
          if Samba.has v vs then kw_changed true "Record has been deleted"
          else kw_ok ("Record found with different value, but not with "
                      ++ v)%string
      end
  end.

(** Every character but the closing parenthesis. *)
Definition not_paren (c : ascii) : bool := negb (Ascii.eqb c ")"%char).

(** * Properties *)

(** ** Text *)

Lemma append_assoc (a b c : string) :
  ((a ++ b) ++ c)%string = (a ++ (b ++ c))%string.
Proof. induction a as [|x a IH]; simpl; [reflexivity | now rewrite IH]. Qed.

Lemma append_nil_r (a : string) : (a ++ "")%string = a.
Proof. induction a as [|x a IH]; simpl; [reflexivity | now rewrite IH]. Qed.

Lemma length_append (a b : string) :
  String.length (a ++ b) = String.length a + String.length b.
Proof. induction a as [|x a IH]; simpl; [reflexivity | now rewrite IH]. Qed.

Lemma prefix_append (n h : string) :
  String.prefix n h = true <-> exists b, h = (n ++ b)%string.
Proof.
  revert h; induction n as [|c n IH]; intros h.
  - simpl. destruct h; split; eauto.
  - destruct h as [|c' h]; simpl.
    + split; [discriminate | intros [b Hb]; discriminate].
    + destruct (Ascii.ascii_dec c c') as [->|Hne].
      * rewrite IH. split; intros [b Hb]; exists b; congruence.
      * split; [discriminate | intros [b Hb]; congruence].
Qed.

Lemma contains_unfold (n h : string) :
  Text.contains n h
  = if String.prefix n h then true
    else match h with
         | EmptyString => false
         | String _ h' => Text.contains n h'
         end.
Proof. destruct h; reflexivity. Qed.

(** [contains] is the substring test. *)
Lemma contains_spec (n h : string) :
  Text.contains n h = true <-> exists a b, h = (a ++ n ++ b)%string.
Proof.
  induction h as [|c h IH]; rewrite contains_unfold.
  - destruct (String.prefix n "") eqn:P.
    + apply prefix_append in P as [b Hb]. split; [|reflexivity].
      intros _. exists "", b. exact Hb.
    + split; [discriminate|]. intros (a & b & H).
      destruct a; [|discriminate]. simpl in H.
      assert (String.prefix n "" = true) by (apply prefix_append; eauto).
      congruence.
  - destruct (String.prefix n (String c h)) eqn:P.
    + apply prefix_append in P as [b Hb]. split; [|reflexivity].
      intros _. exists "", b. exact Hb.
    + rewrite IH. split.
      * intros (a & b & ->). exists (String c a), b. reflexivity.
      * intros (a & b & H). destruct a as [|c' a].
        -- simpl in H.
           assert (String.prefix n (String c h) = true)
             by (apply prefix_append; eauto).
           congruence.
        -- simpl in H. injection H as _ ->. eauto.
Qed.

(** ** Re: literals, greedy groups, lines *)

Lemma match_here_lits_app (w : string) (p : Re.regex) (u : string) :
  Re.match_here (Re.lits w ++ p) (w ++ u) = Re.match_here p u.
Proof.
  induction w as [|c w IH]; [reflexivity|].
  cbn. now rewrite Ascii.eqb_refl.
Qed.

Lemma match_here_lits_inv (w : string) (p : Re.regex) (s : string) r :
  Re.match_here (Re.lits w ++ p) s = Some r ->
  exists u, s = (w ++ u)%string /\ Re.match_here p u = Some r.
Proof.
  revert s; induction w as [|c w IH]; intros s H.
  - exists s. auto.
  - cbn in H. destruct s as [|c' s]; [discriminate|].
    destruct (Ascii.eqb_spec c c') as [<-|]; [|discriminate].
    apply IH in H as (u & -> & H). exists u. auto.
Qed.

(** A greedy group takes a whole run of its set when the pattern goes on
    right after it. *)
Lemma many_full (cls : ascii -> bool) k (g u : string) r :
  Text.all_chars cls g = true ->
  Re.next_refused cls u = true ->
  k u = Some r ->
  Re.many cls k (g ++ u) = Some (g, r).
Proof.
  intros Hg Hu Hk. induction g as [|c g IH].
  - destruct u as [|c u]; cbn.
    + unfold Re.stop. now rewrite Hk.
    + cbn in Hu. apply negb_true_iff in Hu. rewrite Hu.
      unfold Re.stop. now rewrite Hk.
  - cbn in Hg. apply andb_prop in Hg as [Hc Hg].
    cbn. rewrite Hc, (IH Hg). reflexivity.
Qed.

Lemma many1_full (cls : ascii -> bool) k (g u : string) r :
  Text.all_chars cls g = true ->
  g <> EmptyString ->
  Re.next_refused cls u = true ->
  k u = Some r ->
  Re.many1 cls k (g ++ u) = Some (g, r).
Proof.
  intros Hg Hne Hu Hk. destruct g as [|c g]; [congruence|].
  cbn in Hg. apply andb_prop in Hg as [Hc Hg].
  cbn. rewrite Hc, (many_full cls k g u r Hg Hu Hk). reflexivity.
Qed.

(** Matching is a matter of one line: with a pattern that takes no line
    feed, what follows the end of the line changes nothing but the rest
    that is handed back. *)
Lemma many_at_line_end (cls : ascii -> bool) k (tail : string) :
  Re.at_line_end tail = true -> cls Text.LF = false ->
  Re.many cls k tail = Re.stop k tail.
Proof.
  intros Ht Hcls. destruct tail as [|c t]; [reflexivity|].
  cbn in Ht. apply Ascii.eqb_eq in Ht. subst c. cbn. now rewrite Hcls.
Qed.

Lemma many1_at_line_end (cls : ascii -> bool) k (tail : string) :
  Re.at_line_end tail = true -> cls Text.LF = false ->
  Re.many1 cls k tail = None.
Proof.
  intros Ht Hcls. destruct tail as [|c t]; [reflexivity|].
  cbn in Ht. apply Ascii.eqb_eq in Ht. subst c. cbn. now rewrite Hcls.
Qed.

Lemma lit_at_line_end (c : ascii) (p : Re.regex) (tail : string) :
  Re.at_line_end tail = true -> Ascii.eqb c Text.LF = false ->
  Re.match_here (Re.Lit c :: p) tail = None.
Proof.
  intros Ht Hc. destruct tail as [|c' t]; [reflexivity|].
  cbn in Ht. apply Ascii.eqb_eq in Ht. subst c'. cbn. now rewrite Hc.
Qed.

Section Locality.
Variable tail : string.
Hypothesis Htail : Re.at_line_end tail = true.

Lemma stop_local k (u : string) :
  k (u ++ tail)%string = Re.extend tail (k u) ->
  Re.stop k (u ++ tail) = Re.extend_group tail (Re.stop k u).
Proof.
  intros Hk. unfold Re.stop. rewrite Hk.
  destruct (k u) as [[caps rest]|]; reflexivity.
Qed.

Lemma many_local (cls : ascii -> bool) k :
  cls Text.LF = false ->
  (forall u, Text.all_chars Re.any_char u = true ->
             k (u ++ tail)%string = Re.extend tail (k u)) ->
  forall u, Text.all_chars Re.any_char u = true ->
            Re.many cls k (u ++ tail) = Re.extend_group tail (Re.many cls k u).
Proof.
  intros Hcls Hk u. induction u as [|c u IH]; intros Hu.
  - cbn [append]. rewrite (many_at_line_end cls k tail Htail Hcls).
    exact (stop_local k "" (Hk "" eq_refl)).
  - pose proof (Hk _ Hu) as Hkc.
    cbn in Hu. apply andb_prop in Hu as [_ Hu]. specialize (IH Hu).
    cbn [append Re.many]. destruct (cls c).
    + rewrite IH. destruct (Re.many cls k u) as [[g [caps rest]]|]; cbn.
      * reflexivity.
      * exact (stop_local k (String c u) Hkc).
    + exact (stop_local k (String c u) Hkc).
Qed.

Lemma match_here_local (p : Re.regex) :
  forallb Re.refuses_LF p = true ->
  forall u, Text.all_chars Re.any_char u = true ->
            Re.match_here p (u ++ tail) = Re.extend tail (Re.match_here p u).
Proof.
  induction p as [|a p IH]; intros Hp u Hu; [reflexivity|].
  cbn in Hp. apply andb_prop in Hp as [Ha Hp]. specialize (IH Hp).
  destruct a as [c|cls|cls]; cbn in Ha; apply negb_true_iff in Ha.
  - destruct u as [|c' u].
    + cbn [append]. now rewrite (lit_at_line_end c p tail Htail Ha).
    + cbn in Hu. apply andb_prop in Hu as [_ Hu].
      cbn. destruct (Ascii.eqb c c'); [now apply IH | reflexivity].
  - cbn [Re.match_here]. rewrite (many_local cls _ Ha IH u Hu).
    destruct (Re.many cls (Re.match_here p) u) as [[g [caps rest]]|];
      reflexivity.
  - cbn [Re.match_here]. destruct u as [|c u].
    + cbn [append]. now rewrite (many1_at_line_end cls _ tail Htail Ha).
    + cbn in Hu. apply andb_prop in Hu as [_ Hu].
      cbn. destruct (cls c); [|reflexivity].
      rewrite (many_local cls _ Ha IH u Hu).
      destruct (Re.many cls (Re.match_here p) u) as [[g [caps rest]]|];
        reflexivity.
Qed.
End Locality.

(** The first line of a text and what follows it. *)
Lemma split_lines_head (s : string) :
  exists l ls tail,
    Text.split_lines s = l :: ls /\ s = (l ++ tail)%string
    /\ Text.all_chars Re.any_char l = true /\ Re.at_line_end tail = true.
Proof.
  induction s as [|c s (l & ls & tail & Hs & Heq & Hl & Ht)].
  - exists "", [], "". auto.
  - cbn [Text.split_lines]. destruct (Ascii.eqb c Text.LF) eqn:Hc.
    + exists "", (Text.split_lines s), (String c s). cbn. rewrite Hc. auto.
    + rewrite Hs. exists (String c l), ls, tail. cbn.
      unfold Re.any_char at 1. rewrite Hc, Hl, Heq. auto.
Qed.

Lemma search_cons (p : Re.regex) (c : ascii) (s : string) :
  Re.search p (String c s) = false ->
  Re.match_here p (String c s) = None /\ Re.search p s = false.
Proof.
  cbn [Re.search]. destruct (Re.match_here p (String c s)); [discriminate|].
  auto.
Qed.

(** No line with a match, no match in the text. *)
Lemma findall_no_line (p : Re.regex) (out : string) :
  forallb Re.refuses_LF p = true ->
  forallb (fun l => negb (Re.search p l)) (Text.split_lines out) = true ->
  Re.findall p out = [].
Proof.
  intros Hp. unfold Re.findall. induction out as [|c out IH]; intros H.
  - cbn in H. cbn. destruct (Re.match_here p ""); [discriminate | reflexivity].
  - cbn [Text.split_lines] in H. destruct (Ascii.eqb c Text.LF) eqn:Hc.
    + cbn [forallb] in H. apply andb_prop in H as [H0 H].
      apply negb_true_iff in H0.
      assert (Hnil : Re.match_here p "" = None)
        by (cbn in H0; destruct (Re.match_here p ""); [discriminate | reflexivity]).
      pose proof (match_here_local (String c out) Hc p Hp "" eq_refl) as Hloc.
      cbn [append] in Hloc. rewrite Hnil in Hloc. cbn in Hloc.
      cbn [Re.findall_from]. rewrite Hloc. now apply IH.
    + destruct (split_lines_head out) as (l & ls & tail & Hs & Heq & Hl & Ht).
      rewrite Hs in H, IH. cbn [forallb] in H. apply andb_prop in H as [H0 H].
      apply negb_true_iff in H0. apply search_cons in H0 as [Hm Hsl].
      assert (Hcl : Text.all_chars Re.any_char (String c l) = true)
        by (cbn; unfold Re.any_char at 1; now rewrite Hc, Hl).
      pose proof (match_here_local tail Ht p Hp (String c l) Hcl) as Hloc.
      rewrite Hm in Hloc. cbn in Hloc. rewrite <- Heq in Hloc.
      cbn [Re.findall_from]. rewrite Hloc. apply IH.
      cbn [forallb]. now rewrite Hsl, H.
Qed.

(** What a greedy group has taken is in front of what the rest of the
    pattern has matched. *)
Lemma many_inv (cls : ascii -> bool) k (s g : string) r :
  Re.many cls k s = Some (g, r) ->
  exists u, s = (g ++ u)%string /\ k u = Some r.
Proof.
  revert g. induction s as [|c s IH]; intros g H.
  - cbn in H. unfold Re.stop in H. destruct (k "") eqn:E; [|discriminate].
    injection H as <- <-. exists "". auto.
  - cbn [Re.many] in H.
    assert (Hstop : Re.stop k (String c s) = Some (g, r) ->
                    exists u, String c s = (g ++ u)%string /\ k u = Some r).
    { unfold Re.stop. destruct (k (String c s)) eqn:E; [|discriminate].
      intros [= <- <-]. exists (String c s). auto. }
    destruct (cls c); [|auto].
    destruct (Re.many cls k s) as [[g' r']|]; [|auto].
    injection H as <- <-. destruct (IH g' eq_refl) as (u & -> & Hk).
    exists u. auto.
Qed.

Lemma many1_inv (cls : ascii -> bool) k (s g : string) r :
  Re.many1 cls k s = Some (g, r) ->
  exists u, s = (g ++ u)%string /\ k u = Some r.
Proof.
  destruct s as [|c s]; [discriminate|]. cbn.
  destruct (cls c); [|discriminate].
  destruct (Re.many cls k s) as [[g' r']|] eqn:E; [|discriminate].
  intros [= <- <-]. apply many_inv in E as (u & -> & Hk). exists u. auto.
Qed.

(** A match of the record pattern is a text of the record layout, and
    the groups are its four fields. *)
Lemma match_here_shape (ty : RecordType) (s : string) caps rest :
  Re.match_here (record_pattern ty) s = Some (caps, rest) ->
  exists v f sr t,
    s = (type_str ty ++ ": " ++ v ++ " (flags=" ++ f ++ ", serial=" ++ sr
         ++ ", ttl=" ++ t ++ ")" ++ rest)%string
    /\ caps = [v; f; sr; t].
Proof.
  unfold record_pattern. intros H.
  apply match_here_lits_inv in H as (u1 & -> & H).
  apply match_here_lits_inv in H as (u2 & -> & H).
  cbn [app Re.match_here] in H.
  destruct (Re.many1 _ _ u2) as [[v [c1 r1]]|] eqn:E1; [|discriminate].
  injection H as <- <-.
  apply many1_inv in E1 as (u3 & -> & H).
  apply match_here_lits_inv in H as (u4 & -> & H).
  cbn [app Re.match_here] in H.
  destruct (Re.many _ _ u4) as [[f [c2 r2]]|] eqn:E2; [|discriminate].
  injection H as <- <-.
  apply many_inv in E2 as (u5 & -> & H).
  apply match_here_lits_inv in H as (u6 & -> & H).
  cbn [app Re.match_here] in H.
  destruct (Re.many _ _ u6) as [[sr [c3 r3]]|] eqn:E3; [|discriminate].
  injection H as <- <-.
  apply many_inv in E3 as (u7 & -> & H).
  apply match_here_lits_inv in H as (u8 & -> & H).
  cbn [app Re.match_here] in H.
  destruct (Re.many _ _ u8) as [[t [c4 r4]]|] eqn:E4; [|discriminate].
  injection H as <- <-.
  apply many_inv in E4 as (u9 & -> & H).
  rewrite <- (app_nil_r (Re.lits ")")) in H.
  apply match_here_lits_inv in H as (u10 & -> & H).
  cbn in H. injection H as <- <-.
  exists v, f, sr, t. auto.
Qed.

Lemma search_shape (ty : RecordType) (line : string) :
  Re.search (record_pattern ty) line = true -> has_shape ty line.
Proof.
  induction line as [|c line IH]; cbn [Re.search]; intros H.
  - destruct (Re.match_here (record_pattern ty) "") as [[caps rest]|] eqn:E;
      [|discriminate].
    apply match_here_shape in E as (v & f & sr & t & E & _).
    exists "", v, f, sr, t, rest. exact E.
  - destruct (Re.match_here (record_pattern ty) (String c line))
      as [[caps rest]|] eqn:E.
    + apply match_here_shape in E as (v & f & sr & t & E & _).
      exists "", v, f, sr, t, rest. exact E.
    + destruct (IH H) as (pre & v & f & sr & t & post & ->).
      exists (String c pre), v, f, sr, t, post. reflexivity.
Qed.

(** Lines none of which has the record layout have no match. *)
Lemma no_shape_no_search (ty : RecordType) (lines : list string) :
  (forall line, In line lines -> ~ has_shape ty line) ->
  forallb (fun l => negb (Re.search (record_pattern ty) l)) lines = true.
Proof.
  intros H. apply forallb_forall. intros l Hl.
  destruct (Re.search (record_pattern ty) l) eqn:E; [|reflexivity].
  exfalso. exact (H l Hl (search_shape ty l E)).
Qed.

Lemma record_pattern_refuses_LF (ty : RecordType) :
  forallb Re.refuses_LF (record_pattern ty) = true.
Proof. destruct ty; reflexivity. Qed.

(** ** Re: reading back what the tool prints *)

Lemma all_chars_append (f : ascii -> bool) (a b : string) :
  Text.all_chars f (a ++ b) = Text.all_chars f a && Text.all_chars f b.
Proof.
  induction a as [|c a IH]; [reflexivity|]. cbn. now rewrite IH, andb_assoc.
Qed.

(** Where the scan goes on after a match or a miss. *)
Lemma findall_from_skip (p : Re.regex) (a b : string) :
  Re.findall_from p (String.length a) (a ++ b) = Re.findall_from p 0 b.
Proof. induction a as [|c a IH]; [reflexivity | exact IH]. Qed.

Lemma findall_miss (p : Re.regex) (c : ascii) (s : string) :
  Re.match_here p (String c s) = None ->
  Re.findall_from p 0 (String c s) = Re.findall_from p 0 s.
Proof. intros H. cbn [Re.findall_from]. now rewrite H. Qed.

Lemma findall_hit (p : Re.regex) (c : ascii) (m rest : string) caps :
  Re.match_here p (String c (m ++ rest)) = Some (caps, rest) ->
  Re.findall_from p 0 (String c (m ++ rest)) = caps :: Re.findall_from p 0 rest.
Proof.
  intros H. cbn [Re.findall_from]. rewrite H. f_equal.
  rewrite length_append, Nat.add_sub. apply findall_from_skip.
Qed.

(** A line without a match is passed over. *)
Lemma findall_skip_line (p : Re.regex) (l rest : string) :
  forallb Re.refuses_LF p = true ->
  Text.all_chars Re.any_char l = true ->
  Re.search p l = false ->
  Re.findall_from p 0 (l ++ String Text.LF rest) = Re.findall_from p 0 rest.
Proof.
  intros Hp. induction l as [|c l IH]; intros Hl Hs.
  - cbn [append]. rewrite findall_miss; [reflexivity|].
    pose proof (match_here_local (String Text.LF rest) eq_refl p Hp "" eq_refl)
      as Hloc.
    cbn [append] in Hloc. rewrite Hloc.
    cbn in Hs. destruct (Re.match_here p ""); [discriminate | reflexivity].
  - apply search_cons in Hs as [Hm Hs].
    pose proof (match_here_local (String Text.LF rest) eq_refl p Hp _ Hl) as Hloc.
    rewrite Hm in Hloc. cbn in Hloc.
    cbn in Hl. apply andb_prop in Hl as [_ Hl].
    cbn [append]. rewrite findall_miss by exact Hloc. now apply IH.
Qed.

(** The pattern needs a colon. *)
Lemma no_colon_no_match (ty : RecordType) (u : string) :
  Text.all_chars Samba.no_colon u = true ->
  Re.match_here (record_pattern ty) u = None.
Proof.
  intros Hu. destruct (Re.match_here (record_pattern ty) u) as [r|] eqn:E;
    [|reflexivity].
  unfold record_pattern in E.
  apply match_here_lits_inv in E as (u1 & -> & E).
  apply match_here_lits_inv in E as (u2 & -> & _).
  rewrite all_chars_append in Hu. apply andb_prop in Hu as [_ Hu].
  cbn in Hu. discriminate.
Qed.

Lemma no_colon_no_search (ty : RecordType) (u : string) :
  Text.all_chars Samba.no_colon u = true ->
  Re.search (record_pattern ty) u = false.
Proof.
  induction u as [|c u IH]; intros Hu.
  - cbn. now rewrite (no_colon_no_match ty "" eq_refl).
  - cbn [Re.search]. rewrite (no_colon_no_match ty _ Hu).
    cbn in Hu. apply andb_prop in Hu as [_ Hu]. now apply IH.
Qed.

Lemma string_of_uint_digits (f : ascii -> bool) (d : Decimal.uint) :
  Text.all_chars f "0123456789" = true ->
  Text.all_chars f (NilEmpty.string_of_uint d) = true.
Proof.
  intros Hf. cbn in Hf.
  repeat (apply andb_prop in Hf as [? Hf]).
  induction d as [|d IH|d IH|d IH|d IH|d IH|d IH|d IH|d IH|d IH|d IH];
    cbn; [reflexivity | ..]; rewrite IH, andb_true_r; assumption.
Qed.

Lemma header_plain (f : ascii -> bool) (n : nat) :
  Text.all_chars f "  Name=, Records=0123456789, Children=0" = true ->
  Text.all_chars f (Samba.header n) = true.
Proof.
  intros Hf. unfold Samba.header, Samba.decimal.
  rewrite !all_chars_append.
  change "  Name=, Records=0123456789, Children=0"
    with ("  Name=, Records=" ++ "0123456789" ++ ", Children=0")%string in Hf.
  rewrite !all_chars_append in Hf.
  apply andb_prop in Hf as [H1 Hf]. apply andb_prop in Hf as [H2 H3].
  now rewrite H1, H3, (string_of_uint_digits f _ H2).
Qed.

(** One printed line gives one record, the value as it was printed. *)
Lemma match_here_line (ty : RecordType) (v rest : string) :
  Samba.numeric v = true ->
  Re.match_here (record_pattern ty)
    (type_str ty ++ ": " ++ v ++ " (flags=f0, serial=0, ttl=1800)"
     ++ String Text.LF rest)
  = Some ([v; "f0"; "0"; "1800"], String Text.LF rest).
Proof.
  intros Hv. unfold Samba.numeric in Hv. apply andb_prop in Hv as [Hd Hne].
  apply negb_true_iff, String.eqb_neq in Hne.
  unfold record_pattern. rewrite !match_here_lits_app.
  cbn [app Re.match_here].
  rewrite (many1_full Re.digit_or_dot _ v
             (" (flags=f0, serial=0, ttl=1800)" ++ String Text.LF rest)
             (["f0"; "0"; "1800"], String Text.LF rest) Hd Hne);
    reflexivity.
Qed.

Lemma findall_lines (ty : RecordType) (vs : Samba.Store) :
  forallb Samba.numeric vs = true ->
  Re.findall_from (record_pattern ty) 0 (Samba.lines (type_str ty) vs)
  = map (fun v => [v; "f0"; "0"; "1800"]) vs.
Proof.
  induction vs as [|v vs IH]; intros Hvs.
  - destruct ty; reflexivity.
  - cbn in Hvs. apply andb_prop in Hvs as [Hv Hvs].
    cbn [Samba.lines map].
    set (L := Samba.lines (type_str ty) vs) in *.
    assert (Hsp : forall s, Re.match_here (record_pattern ty) (String " " s) = None)
      by (intros s; destruct ty; reflexivity).
    assert (Hlf : forall s, Re.match_here (record_pattern ty) (String Text.LF s) = None)
      by (intros s; destruct ty; reflexivity).
    pose proof (match_here_line ty v L Hv) as Hm.
    assert (Hty : exists c T, type_str ty = String c T)
      by (destruct ty; eexists; eexists; reflexivity).
    destruct Hty as (c & T & HT).
    set (m := (T ++ ": " ++ v ++ " (flags=f0, serial=0, ttl=1800)")%string).
    assert (Hshape :
              (type_str ty ++ ": " ++ v ++ " (flags=f0, serial=0, ttl=1800)"
               ++ String Text.LF L)%string
              = String c (m ++ String Text.LF L)).
    { rewrite HT. unfold m. rewrite !append_assoc. reflexivity. }
    assert (Hline :
              (Samba.line (type_str ty) v ++ Text.nl ++ L)%string
              = String " " (String " " (String " " (String " "
                  (String c (m ++ String Text.LF L)))))).
    { rewrite <- Hshape. unfold Samba.line, Text.nl.
      rewrite !append_assoc. reflexivity. }
    rewrite Hshape in Hm. rewrite Hline.
    rewrite !findall_miss by apply Hsp.
    rewrite (findall_hit _ _ _ _ _ Hm).
    rewrite findall_miss by apply Hlf.
    now rewrite IH.
Qed.

(** The query reads back every value of a store of addresses, in the
    order the tool prints them. *)
Lemma parse_records_query_stdout (ty : RecordType) (vs : Samba.Store) :
  forallb Samba.numeric vs = true ->
  parse_records ty (Samba.query_stdout (type_str ty) vs)
  = map Samba.read_back vs.
Proof.
  intros Hvs. unfold parse_records, Re.findall, Samba.query_stdout, Text.nl.
  cbn [append].
  rewrite findall_skip_line.
  - rewrite (findall_lines ty vs Hvs), map_map. reflexivity.
  - apply record_pattern_refuses_LF.
  - now apply header_plain.
  - apply no_colon_no_search. now apply header_plain.
Qed.

(** ** Runs *)

Section RunFacts.
Context {World : Type}.
Variable tool : list string -> World -> Response * World.

Lemma run_command_eq (cmd : list string) (s : Sys World) r w' :
  tool cmd (world s) = (r, w') ->
  run_command tool cmd s
  = (Ret r, {| world := w'; trace := trace s ++ [cmd] |}).
Proof. intros E. unfold run_command. now rewrite E. Qed.

(** The loop of lines 249 to 251 stops the run at the first record with
    the wanted value and falls through otherwise. *)
Lemma for_each_exit (recs : list ExistingRecord) (v : string) (kw : Kwargs)
      (s : Sys World) :
  for_each recs (fun rec => when (String.eqb (item0 rec) v) (exit_json kw)) s
  = if existsb (fun rec => String.eqb (item0 rec) v) recs
    then (Stop (ExitJson kw), s) else (Ret tt, s).
Proof.
  induction recs as [|r recs IH]; [reflexivity|].
  cbn [for_each existsb]. unfold bind.
  destruct (String.eqb (item0 r) v); cbn [when orb].
  - reflexivity.
  - exact IH.
Qed.

Lemma mem_existsb (v : string) (recs : list ExistingRecord) :
  Text.mem v (map item0 recs)
  = existsb (fun rec => String.eqb (item0 rec) v) recs.
Proof.
  unfold Text.mem. induction recs as [|r recs IH]; simpl; [reflexivity|].
  now rewrite IH, String.eqb_sym.
Qed.

(** What [manage_dns] does with the answer of the tool. *)
Lemma manage_dns_run (self : SambaToolDNS) (record value : string)
      (type : RecordType) (action : string) (s : Sys World)
      rc out err w' :
  Text.mem action ["add"; "delete"] = true ->
  tool (manage_cmd self record value type action) (world s)
  = ((rc, out, err), w') ->
  manage_dns tool self record value type action s
  = ((if String.eqb action "add" && negb (rc =? 0)%Z
         && Text.contains RECORD_ALREADY_EXISTS err
      then Stop (ExitJson (kw_changed false "Rercord already present"))
      else if negb (rc =? 0)%Z
           then Stop (FailJson (kw_failed
                  ("Action " ++ action ++ " for record failed")%string err rc))
           else Ret tt),
     {| world := w'; trace := trace s ++ [manage_cmd self record value type action] |}).
Proof.
  intros Hact E. unfold manage_dns, bind, when. rewrite Hact. simpl.
  unfold ret at 1. rewrite (run_command_eq _ _ _ _ E).
  destruct (String.eqb action "add" && negb (rc =? 0)%Z
            && Text.contains RECORD_ALREADY_EXISTS err); [reflexivity|].
  destruct (negb (rc =? 0)%Z); reflexivity.
Qed.

Lemma manage_cmd_inj self r v t a r' v' t' a' :
  manage_cmd self r v t a = manage_cmd self r' v' t' a' ->
  a = a' /\ r = r' /\ v = v'.
Proof.
  unfold manage_cmd. intros H. apply app_inv_head in H.
  injection H as Ha Hr _ Hv. auto.
Qed.

End RunFacts.

(** ** The apply step: [manage_dns] *)

(** C10. Whatever the action, unless it is [add] or [delete],
    [manage_dns] fails the run with the 'Wrong action' message before it
    builds or runs a command: the trace and the world are left as they
    were, so the tool is never called with an action it does not know. *)
Theorem manage_dns_wrong_action :
  forall (World : Type) (tool : list string -> World -> Response * World)
         (self : SambaToolDNS) (record value : string) (type : RecordType)
         (action : string) (s : Sys World),
    action <> "add" -> action <> "delete" ->
    manage_dns tool self record value type action s
    = (Stop (FailJson (kw_msg "Wrong action for managing DNS record")), s).
Proof.
  intros World tool self record value type action s Ha Hd.
  unfold manage_dns, bind, when, Text.mem. cbn [existsb].
  apply String.eqb_neq in Ha, Hd. rewrite Ha, Hd. reflexivity.
Qed.

Lemma manage_dns_wrong_action_witness :
  manage_dns (Sample.answering (0%Z, Some "", "")) 
             (Sample.st (Sample.module present "10.1.1.123" A false))
             "www" "10.1.1.123" A "update" Sample.start
  = (Stop (FailJson (kw_msg "Wrong action for managing DNS record")),
     Sample.start).
Proof.
  apply (manage_dns_wrong_action unit); discriminate.
Defined.

(** C7, as the code has it. For [add] and [delete] and every answer of
    the tool: exit code zero is a success, [manage_dns] returns and the
    run goes on; a non-zero exit of [add] whose stderr holds the
    already-exists marker ends the run unchanged ('Rercord already
    present'); every other non-zero exit fails the run, and the failure
    carries the tool's stderr and exit code. The tool's stdout is not
    part of the failure. *)
Theorem manage_dns_classification :
  forall (World : Type) (tool : list string -> World -> Response * World)
         (self : SambaToolDNS) (record value : string) (type : RecordType)
         (action : string) (s : Sys World) rc out err w',
    action = "add" \/ action = "delete" ->
    tool (manage_cmd self record value type action) (world s)
    = ((rc, out, err), w') ->
    let r := fst (manage_dns tool self record value type action s) in
    (rc = 0%Z -> r = Ret tt)
    /\ (rc <> 0%Z -> action = "add" ->
        Text.contains RECORD_ALREADY_EXISTS err = true ->
        r = Stop (ExitJson (kw_changed false "Rercord already present"))
        /\ is_unchanged (ExitJson (kw_changed false "Rercord already present")) = true)
    /\ (rc <> 0%Z ->
        action = "delete" \/ Text.contains RECORD_ALREADY_EXISTS err = false ->
        r = Stop (FailJson
                    {| changed := None; ok := None;
                       msg := ("Action " ++ action ++ " for record failed")%string;
                       samba_tool_stderr := Some err;
                       samba_tool_rc := Some rc |})).
Proof.
  intros World tool self record value type action s rc out err w' Hact E r.
  assert (Hmem : Text.mem action ["add"; "delete"] = true)
    by (destruct Hact as [-> | ->]; reflexivity).
  subst r. rewrite (manage_dns_run tool _ _ _ _ _ _ _ _ _ _ Hmem E).
  cbn [fst]. split; [|split].
  - intros ->. cbn. rewrite andb_false_r. reflexivity.
  - intros Hrc -> Hm. apply Z.eqb_neq in Hrc. rewrite Hrc, Hm.
    split; reflexivity.
  - intros Hrc Hother. apply Z.eqb_neq in Hrc. rewrite Hrc. cbn [negb].
    destruct Hother as [-> | Hm].
    + reflexivity.
    + rewrite Hm, andb_false_r. reflexivity.
Qed.

Lemma manage_dns_classification_witness :
  let r := fst (manage_dns
                  (Sample.answering (255%Z, Some "", "WERR_DNS_ERROR_RECORD_ALREADY_EXISTS"))
                  (Sample.st (Sample.module present "10.1.1.123" A false))
                  "www" "10.1.1.123" A "add" Sample.start) in
  r = Stop (ExitJson (kw_changed false "Rercord already present"))
  /\ is_unchanged (ExitJson (kw_changed false "Rercord already present")) = true.
Proof.
  refine (proj1 (proj2 (manage_dns_classification unit
    (Sample.answering (255%Z, Some "", "WERR_DNS_ERROR_RECORD_ALREADY_EXISTS"))
    (Sample.st (Sample.module present "10.1.1.123" A false))
    "www" "10.1.1.123" A "add" Sample.start 255%Z (Some "")
    "WERR_DNS_ERROR_RECORD_ALREADY_EXISTS" tt _ _)) _ _ _).
  - left; reflexivity.
  - reflexivity.
  - discriminate.
  - reflexivity.
  - reflexivity.
Defined.

(** C7 as stated fails on the stdout: two answers of the tool that
    differ in nothing but their stdout fail the run with one and the same
    result, so no reader of the failure can tell the stdout. *)
Lemma manage_dns_failure_drops_stdout :
  let run out :=
    fst (manage_dns (Sample.answering (1%Z, Some out, "boom"))
                    (Sample.st (Sample.module absent "10.1.1.123" A false))
                    "www" "10.1.1.123" A "delete" Sample.start) in
  run "first" = Stop (FailJson (kw_failed "Action delete for record failed" "boom" 1%Z))
  /\ ~ (exists read : Res unit -> option string,
          forall out, read (run out) = Some out).
Proof.
  cbv zeta. split; [reflexivity|].
  intros [read H]. pose proof (H "first") as H1. pose proof (H "second") as H2.
  cbv in H1, H2. rewrite H1 in H2. discriminate.
Qed.

(** ** The query: [get_exist_dns] *)

Section QueryFacts.
Context {World : Type}.
Variable tool : list string -> World -> Response * World.

(** The three ways out of [get_exist_dns], by the answer of the tool. *)
Lemma get_exist_dns_run (self : SambaToolDNS) (record : string)
      (type : RecordType) (s : Sys World) rc out err w' :
  tool (query_cmd self record type) (world s) = ((rc, out, err), w') ->
  get_exist_dns tool self record type s
  = ((if Text.contains ZONE_DOES_NOT_EXIST err then
        Stop (FailJson (kw_msg ("Zone " ++ self_zone self
                                ++ " does not exists.")%string))
      else if negb (rc =? 0)%Z || Text.contains NAME_DOES_NOT_EXIST err then
        Ret []
      else if truthy out || is_not_None out then
        Ret (parse_records type (text_of out))
      else Ret []),
     {| world := w'; trace := trace s ++ [query_cmd self record type] |}).
Proof.
  intros E. unfold get_exist_dns, bind, when.
  rewrite (run_command_eq _ _ _ _ _ E).
  destruct (Text.contains ZONE_DOES_NOT_EXIST err); [reflexivity|].
  unfold ret at 1.
  destruct (negb (rc =? 0)%Z || Text.contains NAME_DOES_NOT_EXIST err);
    [reflexivity|].
  destruct (truthy out || is_not_None out); reflexivity.
Qed.

End QueryFacts.

(** C5. Whatever the exit code and the stdout of the query, and whatever
    else its stderr holds, a stderr with the zone-does-not-exist marker
    makes [get_exist_dns] fail the run with 'Zone ... does not exists.';
    no list is returned. *)
Theorem zone_missing_is_fatal :
  forall (World : Type) (tool : list string -> World -> Response * World)
         (self : SambaToolDNS) (record : string) (type : RecordType)
         (s : Sys World) rc out err w',
    tool (query_cmd self record type) (world s) = ((rc, out, err), w') ->
    Text.contains ZONE_DOES_NOT_EXIST err = true ->
    get_exist_dns tool self record type s
    = (Stop (FailJson (kw_msg ("Zone " ++ self_zone self
                               ++ " does not exists.")%string)),
       {| world := w'; trace := trace s ++ [query_cmd self record type] |}).
Proof.
  intros World tool self record type s rc out err w' E Hz.
  rewrite (get_exist_dns_run tool _ _ _ _ _ _ _ _ E), Hz. reflexivity.
Qed.

Lemma zone_missing_is_fatal_witness :
  fst (get_exist_dns
         (Sample.answering
            (0%Z, Some "    A: 10.1.1.123 (flags=f0, serial=0, ttl=1800)",
             "WERR_DNS_ERROR_NAME_DOES_NOT_EXIST WERR_DNS_ERROR_ZONE_DOES_NOT_EXIST"))
         (Sample.st (Sample.module present "10.1.1.123" A false))
         "www" A Sample.start)
  = Stop (FailJson (kw_msg "Zone example.com does not exists.")).
Proof.
  rewrite (zone_missing_is_fatal unit _ _ "www" A Sample.start 0%Z
             (Some "    A: 10.1.1.123 (flags=f0, serial=0, ttl=1800)")
             "WERR_DNS_ERROR_NAME_DOES_NOT_EXIST WERR_DNS_ERROR_ZONE_DOES_NOT_EXIST"
             tt).
  - reflexivity.
  - reflexivity.
  - reflexivity.
Defined.

Lemma parse_records_empty (ty : RecordType) : parse_records ty "" = [].
Proof. destruct ty; reflexivity. Qed.

(** C6. When the stderr of the query does not hold the
    zone-does-not-exist marker, [get_exist_dns] always returns a list,
    whatever the stdout is: there is no parse failure. The list is empty
    whenever the exit code is not zero, or stderr holds the
    name-does-not-exist marker, or stdout is [None] or the empty string,
    or no line of stdout has a match of the record pattern, which is the
    case when no line of stdout has the record layout. *)
Theorem record_absent_classification :
  forall (World : Type) (tool : list string -> World -> Response * World)
         (self : SambaToolDNS) (record : string) (type : RecordType)
         (s : Sys World) rc out err w',
    tool (query_cmd self record type) (world s) = ((rc, out, err), w') ->
    Text.contains ZONE_DOES_NOT_EXIST err = false ->
    (exists recs, fst (get_exist_dns tool self record type s) = Ret recs)
    /\ (rc <> 0%Z
        \/ Text.contains NAME_DOES_NOT_EXIST err = true
        \/ out = None
        \/ out = Some EmptyString
        \/ (exists text,
              out = Some text
              /\ forallb (fun l => negb (Re.search (record_pattern type) l))
                         (Text.split_lines text) = true)
        \/ (exists text,
              out = Some text
              /\ forall line, In line (Text.split_lines text) ->
                              ~ has_shape type line) ->
        fst (get_exist_dns tool self record type s) = Ret []).
Proof.
  intros World tool self record type s rc out err w' E Hz.
  rewrite (get_exist_dns_run tool _ _ _ _ _ _ _ _ E), Hz. cbn [fst].
  split.
  - destruct (negb (rc =? 0)%Z || Text.contains NAME_DOES_NOT_EXIST err);
      [eauto|].
    destruct (truthy out || is_not_None out); eauto.
  - intros H.
    destruct (negb (rc =? 0)%Z || Text.contains NAME_DOES_NOT_EXIST err) eqn:Hc;
      [reflexivity|].
    apply orb_false_iff in Hc as [Hrc Hn]. apply negb_false_iff in Hrc.
    apply Z.eqb_eq in Hrc.
    assert (Hlines : forall text,
               forallb (fun l => negb (Re.search (record_pattern type) l))
                       (Text.split_lines text) = true ->
               (if truthy (Some text) || is_not_None (Some text)
                then Ret (parse_records type (text_of (Some text)))
                else Ret []) = Ret []).
    { intros text H'. cbn [truthy is_not_None text_of]. rewrite orb_true_r.
      unfold parse_records.
      now rewrite (findall_no_line _ _ (record_pattern_refuses_LF type) H'). }
    destruct H as [H | [H | [-> | [-> | [(text & -> & H) | (text & -> & H)]]]]];
      [contradiction | congruence | reflexivity | | now apply Hlines
       | now apply Hlines, no_shape_no_search].
    cbn [truthy is_not_None text_of]. rewrite orb_true_r.
    now rewrite parse_records_empty.
Qed.

Lemma record_absent_classification_witness :
  fst (get_exist_dns
         (Sample.answering
            (0%Z, Some "Traceback: A: not-an-address (flags=f0, serial=0, ttl=1800)", ""))
         (Sample.st (Sample.module present "10.1.1.123" A false))
         "www" A Sample.start)
  = Ret [].
Proof.
  refine (proj2 (record_absent_classification unit _ _ "www" A Sample.start 0%Z
    (Some "Traceback: A: not-an-address (flags=f0, serial=0, ttl=1800)") "" tt
    _ _) _).
  - reflexivity.
  - reflexivity.
  - right; right; right; right; left. eexists; split; reflexivity.
Defined.

(** C3, at a record whose value is a name. The tool prints the CNAME
    record in the layout the parser reads, and [get_exist_dns] returns no
    record for it, because the first group of the pattern takes digits
    and dots only; the same line with an A record and an address is read. *)
Theorem get_exist_dns_misses_name_value :
  fst (get_exist_dns
         (Sample.answering
            (0%Z, Some (Samba.query_stdout "CNAME" ["www.example.com"]), ""))
         (Sample.st (Sample.module present "www.example.com" CNAME false))
         "web" CNAME Sample.start)
  = Ret []
  /\ fst (get_exist_dns
            (Sample.answering
               (0%Z, Some (Samba.query_stdout "A" ["10.1.1.123"]), ""))
            (Sample.st (Sample.module present "10.1.1.123" A false))
            "www" A Sample.start)
     = Ret [("10.1.1.123", "f0", "0", "1800")].
Proof. split; vm_compute; reflexivity. Qed.

(** ** The decision: lines 246 to 271 of [main] *)

Section DecisionFacts.
Context {World : Type}.
Variable tool : list string -> World -> Response * World.

Lemma issued_app (s : Sys World) w (cmds : list (list string)) :
  issued s {| world := w; trace := trace s ++ cmds |} = cmds.
Proof.
  unfold issued. cbn [trace]. rewrite skipn_app, skipn_all, Nat.sub_diag.
  reflexivity.
Qed.

Lemma issued_refl (s : Sys World) : issued s s = [].
Proof. unfold issued. apply skipn_all. Qed.

(** The ensure-present path, whatever the mode. *)
Lemma main_reconcile_present (module : AnsibleModule) (st : SambaToolDNS)
      (recs : list ExistingRecord) (s : Sys World) :
  state (params module) = present ->
  main_reconcile tool module st recs s
  = if existsb (fun rec => String.eqb (item0 rec) (value (params module))) recs
    then (Stop (ExitJson (kw_ok "Record already present")), s)
    else if check_mode module
         then (Stop (ExitJson (kw_changed true "Record has been created")), s)
         else match manage_dns tool st (record (params module))
                               (value (params module)) (type (params module))
                               "add" s with
              | (Ret _, s') =>
                  (Stop (ExitJson (kw_changed true "Record has been created")), s')
              | (Stop e, s') => (Stop e, s')
              end.
Proof.
  intros Hst. unfold main_reconcile. rewrite Hst. unfold bind.
  destruct recs as [|r recs].
  - cbn [nonempty when existsb]. unfold ret at 1.
    destruct (check_mode module); cbn [negb when]; [reflexivity|].
    destruct (manage_dns _ _ _ _ _ _ _) as [[[]|e] s']; reflexivity.
  - cbn [nonempty when]. rewrite for_each_exit.
    destruct (existsb _ (r :: recs)); [reflexivity|].
    destruct (check_mode module); cbn [negb when]; [reflexivity|].
    destruct (manage_dns _ _ _ _ _ _ _) as [[[]|e] s']; reflexivity.
Qed.

(** The ensure-absent path, whatever the mode. *)
Lemma main_reconcile_absent (module : AnsibleModule) (st : SambaToolDNS)
      (recs : list ExistingRecord) (s : Sys World) :
  state (params module) = absent ->
  main_reconcile tool module st recs s
  = match recs with
    | [] => (Stop (ExitJson (kw_ok "No such record found")), s)
    | _ :: _ =>
        if Text.mem (value (params module)) (map item0 recs) then
          if check_mode module
          then (Stop (ExitJson (kw_changed true "Record has been deleted")), s)
          else match manage_dns tool st (record (params module))
                                (value (params module)) (type (params module))
                                "delete" s with
               | (Ret _, s') =>
                   (Stop (ExitJson (kw_changed true "Record has been deleted")), s')
               | (Stop e, s') => (Stop e, s')
               end
        else (Stop (ExitJson
                      (kw_ok ("Record found with different value, but not with "
                              ++ value (params module))%string)), s)
    end.
Proof.
  intros Hst. unfold main_reconcile. rewrite Hst.
  destruct recs as [|r recs]; [reflexivity|]. cbn [nonempty].
  destruct (Text.mem _ _); [|reflexivity]. unfold bind.
  destruct (check_mode module); cbn [negb when]; [reflexivity|].
  destruct (manage_dns _ _ _ _ _ _ _) as [[[]|e] s']; reflexivity.
Qed.

End DecisionFacts.

(** C1. Ensure present, in a run that is not a dry run. If one of the
    current records has the desired value, the run ends unchanged with
    'Record already present' and nothing is run. Otherwise the run issues
    exactly one command, the [add] of the desired value, and when the
    tool exits with zero the run ends changed with 'Record has been
    created'. In neither case is a [delete] issued, for whatever name,
    value or type. *)
Theorem ensure_present_decision :
  forall (World : Type) (tool : list string -> World -> Response * World)
         (module : AnsibleModule) (st : SambaToolDNS)
         (recs : list ExistingRecord) (s : Sys World),
    state (params module) = present ->
    check_mode module = false ->
    let v := value (params module) in
    let add := manage_cmd st (record (params module)) v (type (params module)) "add" in
    let run := main_reconcile tool module st recs s in
    (existsb (fun rec => String.eqb (item0 rec) v) recs = true ->
     run = (Stop (ExitJson (kw_ok "Record already present")), s)
     /\ is_unchanged (ExitJson (kw_ok "Record already present")) = true
     /\ issued s (snd run) = [])
    /\ (existsb (fun rec => String.eqb (item0 rec) v) recs = false ->
        issued s (snd run) = [add]
        /\ (rc_of (fst (tool add (world s))) = 0%Z ->
            fst run = Stop (ExitJson (kw_changed true "Record has been created"))))
    /\ (forall r' v' t',
          ~ In (manage_cmd st r' v' t' "delete") (issued s (snd run))).
Proof.
  intros World tool module st recs s Hst Hmode v add run.
  subst run. rewrite (main_reconcile_present tool _ _ _ _ Hst), Hmode.
  fold v. destruct (existsb _ recs) eqn:Hfound.
  - split; [|split].
    + intros _. cbn [snd]. rewrite issued_refl. auto.
    + discriminate.
    + intros r' v' t'. cbn [snd]. rewrite issued_refl. intros [].
  - destruct (tool add (world s)) as [[[rc out] err] w'] eqn:E.
    fold add.
    rewrite (manage_dns_run tool st _ _ _ "add" s rc out err w' eq_refl E).
    fold add. change (String.eqb "add" "add") with true. cbn [andb rc_of fst].
    assert (Hdel : forall r' v' t', ~ In (manage_cmd st r' v' t' "delete") [add]).
    { intros r' v' t' [H|[]]. symmetry in H.
      apply manage_cmd_inj in H as [H _]. discriminate. }
    destruct (rc =? 0)%Z eqn:Hrc;
      destruct (Text.contains RECORD_ALREADY_EXISTS err);
      cbn [negb andb fst snd]; rewrite issued_app;
      (split; [discriminate | split; [intros _; split; [reflexivity|] | exact Hdel]]);
      try reflexivity;
      intros ->; discriminate.
Qed.

Lemma ensure_present_decision_witness :
  let module := Sample.module present "10.1.1.124" A false in
  let st := Sample.st module in
  let tool := Sample.answering (0%Z, Some "Record added successfully", "") in
  let run := main_reconcile tool module st [Sample.rec "10.1.1.123"] Sample.start in
  issued Sample.start (snd run)
  = [manage_cmd st "www" "10.1.1.124" A "add"]
  /\ (rc_of (fst (tool (manage_cmd st "www" "10.1.1.124" A "add") tt)) = 0%Z ->
      fst run = Stop (ExitJson (kw_changed true "Record has been created"))).
Proof.
  cbv zeta.
  refine (proj1 (proj2 (ensure_present_decision unit
    (Sample.answering (0%Z, Some "Record added successfully", ""))
    (Sample.module present "10.1.1.124" A false)
    (Sample.st (Sample.module present "10.1.1.124" A false))
    [Sample.rec "10.1.1.123"] Sample.start _ _)) _).
  - reflexivity.
  - reflexivity.
  - reflexivity.
Defined.

(** C2. Ensure absent, in a run that is not a dry run. With no current
    record the run ends unchanged with 'No such record found' and nothing
    is run; with records none of which has the desired value it ends
    unchanged with 'Record found with different value, but not with ...'
    and nothing is run; otherwise it issues exactly one command, the
    [delete] of the desired value of the managed record, never a command
    on another value, and when the tool exits with zero the run ends
    changed with 'Record has been deleted'. *)
Theorem ensure_absent_decision :
  forall (World : Type) (tool : list string -> World -> Response * World)
         (module : AnsibleModule) (st : SambaToolDNS)
         (recs : list ExistingRecord) (s : Sys World),
    state (params module) = absent ->
    check_mode module = false ->
    let v := value (params module) in
    let del := manage_cmd st (record (params module)) v (type (params module)) "delete" in
    let run := main_reconcile tool module st recs s in
    (recs = [] ->
     run = (Stop (ExitJson (kw_ok "No such record found")), s)
     /\ is_unchanged (ExitJson (kw_ok "No such record found")) = true
     /\ issued s (snd run) = [])
    /\ (recs <> [] -> Text.mem v (map item0 recs) = false ->
        run = (Stop (ExitJson
                 (kw_ok ("Record found with different value, but not with "
                         ++ v)%string)), s)
        /\ is_unchanged (ExitJson
              (kw_ok ("Record found with different value, but not with "
                      ++ v)%string)) = true
        /\ issued s (snd run) = [])
    /\ (Text.mem v (map item0 recs) = true ->
        issued s (snd run) = [del]
        /\ (rc_of (fst (tool del (world s))) = 0%Z ->
            fst run = Stop (ExitJson (kw_changed true "Record has been deleted"))))
    /\ (forall r' v' t' a, v' <> v ->
          ~ In (manage_cmd st r' v' t' a) (issued s (snd run))).
Proof.
  intros World tool module st recs s Hst Hmode v del run.
  subst run. rewrite (main_reconcile_absent tool _ _ _ _ Hst), Hmode.
  fold v. destruct recs as [|r recs].
  - split; [|split; [|split]].
    + intros _. cbn [snd]. rewrite issued_refl. auto.
    + intros H; now destruct H.
    + discriminate.
    + intros r' v' t' a _. cbn [snd]. rewrite issued_refl. intros [].
  - destruct (Text.mem v (map item0 (r :: recs))) eqn:Hmem.
    + destruct (tool del (world s)) as [[[rc out] err] w'] eqn:E.
      fold del.
      rewrite (manage_dns_run tool st _ _ _ "delete" s rc out err w' eq_refl E).
      fold del. change (String.eqb "delete" "add") with false.
      cbn [andb rc_of fst].
      assert (Hother : forall r' v' t' a, v' <> v ->
                 ~ In (manage_cmd st r' v' t' a) [del]).
      { intros r' v' t' a Hne [H|[]]. symmetry in H.
        apply manage_cmd_inj in H as (_ & _ & H). contradiction. }
      destruct (rc =? 0)%Z eqn:Hrc;
        cbn [negb fst snd]; rewrite issued_app;
        (split; [discriminate | split; [discriminate |
           split; [intros _; split; [reflexivity|] | exact Hother]]]);
        try reflexivity;
        intros ->; discriminate.
    + split; [|split; [|split]].
      * discriminate.
      * intros _ _. cbn [snd]. rewrite issued_refl. auto.
      * discriminate.
      * intros r' v' t' a _. cbn [snd]. rewrite issued_refl. intros [].
Qed.

Lemma ensure_absent_decision_witness :
  let module := Sample.module absent "10.1.1.123" A false in
  let st := Sample.st module in
  let tool := Sample.answering (0%Z, Some "Record deleted successfully", "") in
  let run := main_reconcile tool module st
               [Sample.rec "10.1.1.123"; Sample.rec "10.1.1.124"] Sample.start in
  issued Sample.start (snd run)
  = [manage_cmd st "www" "10.1.1.123" A "delete"]
  /\ (rc_of (fst (tool (manage_cmd st "www" "10.1.1.123" A "delete") tt)) = 0%Z ->
      fst run = Stop (ExitJson (kw_changed true "Record has been deleted"))).
Proof.
  cbv zeta.
  refine (proj1 (proj2 (proj2 (ensure_absent_decision unit
    (Sample.answering (0%Z, Some "Record deleted successfully", ""))
    (Sample.module absent "10.1.1.123" A false)
    (Sample.st (Sample.module absent "10.1.1.123" A false))
    [Sample.rec "10.1.1.123"; Sample.rec "10.1.1.124"] Sample.start _ _))) _).
  - reflexivity.
  - reflexivity.
  - reflexivity.
Defined.

(** ** Dry run *)

(** C4 as stated fails where the tool refuses the change: the records
    found do not hold the value, the real run calls [add], the tool
    answers that the record already exists, and the real run ends
    unchanged while the dry run on the same input reports a change. *)
Lemma dry_run_differs_on_refused_add :
  let tool := Sample.answering
                (255%Z, Some "", "WERR_DNS_ERROR_RECORD_ALREADY_EXISTS") in
  let module := Sample.module present "10.1.1.124" A false in
  let real := main_reconcile tool (with_check_mode false module)
                             (Sample.st module) [] Sample.start in
  let dry := main_reconcile tool (with_check_mode true module)
                            (Sample.st module) [] Sample.start in
  fst real = Stop (ExitJson (kw_changed false "Rercord already present"))
  /\ fst dry = Stop (ExitJson (kw_changed true "Record has been created"))
  /\ fst dry <> fst real.
Proof.
  cbv zeta. split; [reflexivity | split; [reflexivity | discriminate]].
Qed.

(** C4, as the code has it. The dry run takes the decision of the real
    run and runs nothing: it leaves the trace and the world as they were.
    It ends as the real run does, same classification and same message,
    whenever every command the real run issues here exits with zero; and
    whenever the real run ends changed, so does the dry run, with the
    same message. *)
Theorem dry_run_equivalence :
  forall (World : Type) (tool : list string -> World -> Response * World)
         (module : AnsibleModule) (st : SambaToolDNS)
         (recs : list ExistingRecord) (s : Sys World),
    let dry := main_reconcile tool (with_check_mode true module) st recs s in
    let real := main_reconcile tool (with_check_mode false module) st recs s in
    snd dry = s
    /\ issued s (snd dry) = []
    /\ ((forall cmd, In cmd (issued s (snd real)) ->
                     rc_of (fst (tool cmd (world s))) = 0%Z) ->
        fst dry = fst real)
    /\ (forall e, fst real = Stop e -> is_changed e = true -> fst dry = Stop e).
Proof.
  intros World tool module st recs s dry real. subst dry real.
  destruct (state (params module)) eqn:Hst.
  - rewrite (main_reconcile_present tool (with_check_mode true module) _ _ _ Hst).
    rewrite (main_reconcile_present tool (with_check_mode false module) _ _ _ Hst).
    cbn [with_check_mode check_mode params].
    destruct (existsb _ recs).
    + cbn [fst snd]. rewrite issued_refl. repeat split; auto.
    + destruct (tool (manage_cmd st (record (params module)) (value (params module))
                                 (type (params module)) "add") (world s))
        as [[[rc out] err] w'] eqn:E.
      rewrite (manage_dns_run tool st _ _ _ "add" s rc out err w' eq_refl E).
      change (String.eqb "add" "add") with true. cbn [andb].
      destruct (rc =? 0)%Z eqn:Hrc;
        destruct (Text.contains RECORD_ALREADY_EXISTS err);
        cbn [negb andb fst snd]; rewrite issued_app, issued_refl;
        (split; [reflexivity | split; [reflexivity | split]]);
        try (intros _; reflexivity);
        try (intros e [= <-]; discriminate);
        try (intros e [= <-] _; reflexivity);
        intros H; specialize (H _ (or_introl eq_refl));
        rewrite E in H; cbn in H; subst rc; discriminate.
  - rewrite (main_reconcile_absent tool (with_check_mode true module) _ _ _ Hst).
    rewrite (main_reconcile_absent tool (with_check_mode false module) _ _ _ Hst).
    cbn [with_check_mode check_mode params].
    destruct recs as [|r recs].
    + cbn [fst snd]. rewrite issued_refl. repeat split; auto.
    + destruct (Text.mem _ _).
      * destruct (tool (manage_cmd st (record (params module)) (value (params module))
                                   (type (params module)) "delete") (world s))
          as [[[rc out] err] w'] eqn:E.
        rewrite (manage_dns_run tool st _ _ _ "delete" s rc out err w' eq_refl E).
        change (String.eqb "delete" "add") with false. cbn [andb].
        destruct (rc =? 0)%Z eqn:Hrc;
          cbn [negb fst snd]; rewrite issued_app, issued_refl;
          (split; [reflexivity | split; [reflexivity | split]]);
          try (intros _; reflexivity);
          try (intros e [= <-]; discriminate);
          try (intros e [= <-] _; reflexivity);
          intros H; specialize (H _ (or_introl eq_refl));
          rewrite E in H; cbn in H; subst rc; discriminate.
      * cbn [fst snd]. rewrite issued_refl. repeat split; auto.
Qed.

Lemma dry_run_equivalence_witness :
  let tool := Sample.answering (0%Z, Some "Record added successfully", "") in
  let module := Sample.module present "10.1.1.124" A false in
  fst (main_reconcile tool (with_check_mode true module) (Sample.st module)
                      [Sample.rec "10.1.1.123"] Sample.start)
  = fst (main_reconcile tool (with_check_mode false module) (Sample.st module)
                        [Sample.rec "10.1.1.123"] Sample.start).
Proof.
  cbv zeta.
  refine (proj1 (proj2 (proj2 (dry_run_equivalence unit
    (Sample.answering (0%Z, Some "Record added successfully", ""))
    (Sample.module present "10.1.1.124" A false)
    (Sample.st (Sample.module present "10.1.1.124" A false))
    [Sample.rec "10.1.1.123"] Sample.start))) _).
  intros cmd _. reflexivity.
Defined.

(** ** A whole run: [main] *)

Section MainFacts.
Context {World : Type}.
Variable tool : list string -> World -> Response * World.

(** The decision adds nothing to the trace, or one [add], or one
    [delete], of the desired value. *)
Lemma main_reconcile_issues (module : AnsibleModule) (st : SambaToolDNS)
      (recs : list ExistingRecord) (s : Sys World) :
  exists rest,
    trace (snd (main_reconcile tool module st recs s)) = trace s ++ rest
    /\ (rest = []
        \/ exists action,
             (action = "add" \/ action = "delete")
             /\ rest = [manage_cmd st (record (params module))
                                   (value (params module))
                                   (type (params module)) action]).
Proof.
  destruct (state (params module)) eqn:Hst.
  - rewrite (main_reconcile_present tool _ _ _ _ Hst).
    destruct (existsb _ recs); [exists []; rewrite app_nil_r; auto|].
    destruct (check_mode module); [exists []; rewrite app_nil_r; auto|].
    destruct (tool (manage_cmd st (record (params module)) (value (params module))
                               (type (params module)) "add") (world s))
      as [[[rc out] err] w'] eqn:E.
    rewrite (manage_dns_run tool st _ _ _ "add" s rc out err w' eq_refl E).
    eexists; split; [|right; exists "add"; split; [now left | reflexivity]].
    destruct (_ && _); [reflexivity|]. destruct (negb _); reflexivity.
  - rewrite (main_reconcile_absent tool _ _ _ _ Hst).
    destruct recs as [|r recs]; [exists []; rewrite app_nil_r; auto|].
    destruct (Text.mem _ _); [|exists []; rewrite app_nil_r; auto].
    destruct (check_mode module); [exists []; rewrite app_nil_r; auto|].
    destruct (tool (manage_cmd st (record (params module)) (value (params module))
                               (type (params module)) "delete") (world s))
      as [[[rc out] err] w'] eqn:E.
    rewrite (manage_dns_run tool st _ _ _ "delete" s rc out err w' eq_refl E).
    eexists; split; [|right; exists "delete"; split; [now right | reflexivity]].
    destruct (_ && _); [reflexivity|]. destruct (negb _); reflexivity.
Qed.

(** With the executable found, [__init__] returns the object and runs
    nothing. *)
Lemma SambaToolDNS_init_found (module : AnsibleModule) (s : Sys World)
      (path : string) :
  get_bin_path module "samba-tool" = Some path ->
  exists st,
    SambaToolDNS_init module s = (Ret st, s)
    /\ cmdb st = [path; "dns"]
    /\ self_server st = server (params module)
    /\ self_zone st = zone (params module).
Proof.
  intros H. unfold SambaToolDNS_init. rewrite H.
  eexists; split; [reflexivity|]. cbn. auto.
Qed.

(** Without it the run fails before any command. *)
Lemma main_without_executable (module : AnsibleModule) (s : Sys World) :
  get_bin_path module "samba-tool" = None ->
  exists kw, main tool module s = (Stop (FailJson kw), s).
Proof.
  intros H. unfold main, bind, SambaToolDNS_init. rewrite H.
  eexists; reflexivity.
Qed.

End MainFacts.

(** C9. A run that has found the executable issues one query and then at
    most one command more, an [add] or a [delete]: never more than two
    commands, exactly one query, and it is the first; the [add] or
    [delete], when there is one, comes after it and only when the query
    has been classified as a list of records (a query classified as a
    missing zone ends the run). *)
Theorem invocation_bound_and_order :
  forall (World : Type) (tool : list string -> World -> Response * World)
         (module : AnsibleModule) (s : Sys World) (path : string),
    get_bin_path module "samba-tool" = Some path ->
    let run := main tool module s in
    let cmds := issued s (snd run) in
    exists st rest,
      SambaToolDNS_init module s = (Ret st, s)
      /\ cmds = query_cmd st (record (params module)) (type (params module)) :: rest
      /\ is_query (query_cmd st (record (params module)) (type (params module))) = true
      /\ (rest = []
          \/ exists action,
               (action = "add" \/ action = "delete")
               /\ rest = [manage_cmd st (record (params module))
                                     (value (params module))
                                     (type (params module)) action])
      /\ List.length (queries cmds) = 1
      /\ List.length (mutations cmds) <= 1
      /\ List.length cmds <= 2
      /\ (rest <> [] ->
          exists recs s1,
            get_exist_dns tool st (record (params module)) (type (params module)) s
            = (Ret recs, s1)
            /\ issued s s1 = [query_cmd st (record (params module))
                                        (type (params module))]).
Proof.
  intros World tool module s path Hpath run cmds.
  destruct (SambaToolDNS_init_found module s path Hpath)
    as (st & Hinit & Hcmdb & _).
  set (q := query_cmd st (record (params module)) (type (params module))).
  assert (Hq : is_query q = true)
    by (unfold is_query, action_of, q, query_cmd; rewrite Hcmdb; reflexivity).
  assert (Hqm : is_mutating q = false)
    by (unfold is_mutating, action_of, q, query_cmd; rewrite Hcmdb; reflexivity).
  assert (Hm : forall action, action = "add" \/ action = "delete" ->
             let m := manage_cmd st (record (params module)) (value (params module))
                                 (type (params module)) action in
             is_query m = false /\ is_mutating m = true).
  { intros action Ha. unfold is_query, is_mutating, action_of, manage_cmd.
    rewrite Hcmdb. destruct Ha as [-> | ->]; split; reflexivity. }
  exists st. subst run cmds. unfold main, bind. rewrite Hinit. fold q.
  destruct (tool q (world s)) as [[[rc out] err] w'] eqn:E.
  rewrite (get_exist_dns_run tool st _ _ s rc out err w' E). fold q.
  set (s1 := {| world := w'; trace := trace s ++ [q] |}).
  assert (Hstop : forall e,
             let cmds := issued s (snd (@Stop unit e, s1)) in
             exists rest, cmds = q :: rest /\ rest = []).
  { intros e. exists []. split; [apply issued_app | reflexivity]. }
  assert (Hgo : forall recs,
             let cmds := issued s (snd (main_reconcile tool module st recs s1)) in
             exists rest,
               cmds = q :: rest
               /\ (rest = []
                   \/ exists action,
                        (action = "add" \/ action = "delete")
                        /\ rest = [manage_cmd st (record (params module))
                                              (value (params module))
                                              (type (params module)) action])).
  { intros recs.
    destruct (main_reconcile_issues tool module st recs s1) as (rest & Htr & Hrest).
    exists rest. split; [|exact Hrest].
    cbv zeta. unfold issued. rewrite Htr. cbn [trace s1].
    rewrite <- app_assoc, skipn_app, skipn_all, Nat.sub_diag. reflexivity. }
  assert (Hfin : forall (r : Res (list ExistingRecord)) cmds,
             (exists rest, cmds = q :: rest
               /\ (rest = []
                   \/ exists action,
                        (action = "add" \/ action = "delete")
                        /\ rest = [manage_cmd st (record (params module))
                                              (value (params module))
                                              (type (params module)) action])) ->
             (forall e, r = Stop e -> cmds = [q]) ->
             exists rest,
               cmds = q :: rest /\ is_query q = true
               /\ (rest = []
                   \/ exists action,
                        (action = "add" \/ action = "delete")
                        /\ rest = [manage_cmd st (record (params module))
                                              (value (params module))
                                              (type (params module)) action])
               /\ List.length (queries cmds) = 1
               /\ List.length (mutations cmds) <= 1
               /\ List.length cmds <= 2
               /\ (rest <> [] ->
                   exists recs s1',
                     (r, s1) = (Ret recs, s1') /\ issued s s1' = [q])).
  { intros r cmds (rest & -> & Hrest) Hr. exists rest.
    split; [reflexivity|]. split; [exact Hq|]. split; [exact Hrest|].
    destruct Hrest as [-> | (action & Ha & ->)].
    - unfold queries, mutations. cbn [filter]. rewrite Hq, Hqm. cbn.
      repeat split; auto. intros H; now destruct H.
    - destruct (Hm action Ha) as [Hmq Hmm].
      unfold queries, mutations. cbn [filter]. rewrite Hq, Hqm, Hmq, Hmm. cbn.
      repeat split; auto. intros _.
      destruct r as [recs|e].
      + exists recs, s1. split; [reflexivity | apply issued_app].
      + specialize (Hr e eq_refl). discriminate. }
  assert (Hret : forall recs,
             exists rest,
               (Ret st, s) = (Ret st, s)
               /\ issued s (snd (main_reconcile tool module st recs s1)) = q :: rest
               /\ is_query q = true
               /\ (rest = []
                   \/ exists action,
                        (action = "add" \/ action = "delete")
                        /\ rest = [manage_cmd st (record (params module))
                                              (value (params module))
                                              (type (params module)) action])
               /\ List.length (queries (issued s (snd (main_reconcile tool module st recs s1)))) = 1
               /\ List.length (mutations (issued s (snd (main_reconcile tool module st recs s1)))) <= 1
               /\ List.length (issued s (snd (main_reconcile tool module st recs s1))) <= 2
               /\ (rest <> [] ->
                   exists recs' s1',
                     (Ret recs, s1) = (Ret recs', s1') /\ issued s s1' = [q])).
  { intros recs.
    destruct (Hfin (Ret recs) _ (Hgo recs)) as (rest & Hall); [discriminate|].
    exists rest. split; [reflexivity | exact Hall]. }
  destruct (Text.contains ZONE_DOES_NOT_EXIST err).
  { set (e := FailJson _).
    destruct (Hfin (Stop e) (issued s s1)) as (rest & Hall).
    - destruct (Hstop e) as (rest & H1 & H2). exists rest; auto.
    - intros e' _. apply issued_app.
    - exists rest. split; [reflexivity | exact Hall]. }
  destruct (negb (rc =? 0)%Z || Text.contains NAME_DOES_NOT_EXIST err).
  { apply Hret. }
  destruct (truthy out || is_not_None out); apply Hret.
Qed.

Lemma invocation_bound_and_order_witness :
  let tool := Sample.answering (0%Z, Some "", "") in
  let module := Sample.module present "10.1.1.123" A false in
  let cmds := issued Sample.start (snd (main tool module Sample.start)) in
  List.length (queries cmds) = 1
  /\ List.length (mutations cmds) <= 1
  /\ List.length cmds <= 2.
Proof.
  cbv zeta.
  destruct (invocation_bound_and_order unit (Sample.answering (0%Z, Some "", ""))
              (Sample.module present "10.1.1.123" A false) Sample.start
              "/usr/bin/samba-tool" eq_refl)
    as (st & rest & _ & _ & _ & _ & Hq & Hm & Hl & _).
  exact (conj Hq (conj Hm Hl)).
Defined.

(** ** Runs one after the other on the store *)

Lemma has_read_back (v : string) (vs : Samba.Store) :
  existsb (fun rec => String.eqb (item0 rec) v) (map Samba.read_back vs)
  = Samba.has v vs.
Proof.
  unfold Samba.has, Text.mem. induction vs as [|x vs IH]; [reflexivity|].
  cbn. now rewrite IH, String.eqb_sym.
Qed.

Lemma has_append (v : string) (vs : Samba.Store) :
  Samba.has v (vs ++ [v]) = true.
Proof.
  unfold Samba.has, Text.mem. rewrite existsb_app. cbn.
  now rewrite String.eqb_refl, orb_true_r.
Qed.

Lemma has_without (v : string) (vs : Samba.Store) :
  Samba.has v (Samba.without v vs) = false.
Proof.
  unfold Samba.has, Samba.without, Text.mem.
  induction vs as [|x vs IH]; [reflexivity|]. cbn.
  destruct (String.eqb x v) eqn:E; cbn; [exact IH|].
  now rewrite String.eqb_sym, E, IH.
Qed.

Lemma settle_satisfied (st : State) (v : string) (vs : Samba.Store) :
  Samba.satisfied st v (Samba.settle st v vs) = true.
Proof.
  destruct st; unfold Samba.satisfied, Samba.settle;
    destruct (Samba.has v vs) eqn:E;
    rewrite ?E, ?has_append, ?has_without; reflexivity.
Qed.

Lemma settle_fixed (st : State) (v : string) (vs : Samba.Store) :
  Samba.satisfied st v vs = true -> Samba.settle st v vs = vs.
Proof.
  destruct st; unfold Samba.satisfied, Samba.settle; intros H.
  - now rewrite H.
  - apply negb_true_iff in H. now rewrite H.
Qed.


Section StoreRuns.
Variable st : SambaToolDNS.
Variable path : string.
Hypothesis Hcmdb : cmdb st = [path; "dns"].

Lemma query_on_store (record : string) (ty : RecordType)
      (vs : Samba.Store) (tr : list (list string)) :
  forallb Samba.numeric vs = true ->
  get_exist_dns Samba.tool st record ty {| world := vs; trace := tr |}
  = (Ret (map Samba.read_back vs),
     {| world := vs; trace := tr ++ [query_cmd st record ty] |}).
Proof.
  intros Hvs.
  destruct vs as [|v vs].
  - erewrite get_exist_dns_run
      by (unfold query_cmd; rewrite Hcmdb; reflexivity).
    reflexivity.
  - assert (E : Samba.tool (query_cmd st record ty) (v :: vs)
                = ((0%Z, Some (Samba.query_stdout (type_str ty) (v :: vs)), ""),
                   v :: vs))
      by (unfold query_cmd; rewrite Hcmdb; reflexivity).
    erewrite get_exist_dns_run by exact E.
    change (Text.contains ZONE_DOES_NOT_EXIST "") with false.
    change (Text.contains NAME_DOES_NOT_EXIST "") with false.
    change (negb (0 =? 0)%Z || false) with false.
    cbn [truthy is_not_None text_of]. rewrite orb_true_r.
    now rewrite (parse_records_query_stdout ty (v :: vs) Hvs).
Qed.

Lemma add_on_store (record value : string) (ty : RecordType)
      (vs : Samba.Store) :
  Samba.has value vs = false ->
  Samba.tool (manage_cmd st record value ty "add") vs
  = ((0%Z, Some "Record added successfully", ""), vs ++ [value]).
Proof.
  intros H. unfold manage_cmd. rewrite Hcmdb. cbn. now rewrite H.
Qed.

Lemma delete_on_store (record value : string) (ty : RecordType)
      (vs : Samba.Store) :
  Samba.has value vs = true ->
  Samba.tool (manage_cmd st record value ty "delete") vs
  = ((0%Z, Some "Record deleted successfully", ""), Samba.without value vs).
Proof.
  intros H. unfold manage_cmd. rewrite Hcmdb. cbn. now rewrite H.
Qed.

End StoreRuns.


(** Where there is nothing to do the first run already ends unchanged:
    no record in the store and the record wanted absent. *)
Lemma first_run_unchanged_when_satisfied :
  let first := main Samba.tool (Sample.module absent "10.1.1.123" A false)
                    {| world := []; trace := [] |} in
  fst first = Stop (ExitJson (kw_ok "No such record found"))
  /\ is_changed (ExitJson (kw_ok "No such record found")) = false
  /\ mutations (trace (snd first)) = [].
Proof. cbv zeta. repeat split. Qed.

(** C8, at a record whose value is a name. The first run adds the CNAME
    value and ends changed; the second run, on the store the first one
    left, prints the value in the query, does not read it back through
    the pattern of line 182 and issues the [add] once more; the tool
    answers that the record already exists and the run ends unchanged
    only through the check in [manage_dns]. *)
Lemma second_run_adds_name_again :
  let module := Sample.module present "www.example.com" CNAME false in
  let first := main Samba.tool module {| world := []; trace := [] |} in
  let second := main Samba.tool module (snd first) in
  fst first = Stop (ExitJson (kw_changed true "Record has been created"))
  /\ world (snd first) = ["www.example.com"]
  /\ fst second = Stop (ExitJson (kw_changed false "Rercord already present"))
  /\ mutations (issued (snd first) (snd second))
     = [manage_cmd (Sample.st module) "www" "www.example.com" CNAME "add"].
Proof. cbv zeta. repeat split. Qed.




(** * More on the query parser *)

(** What a greedy group has taken is made of characters of its set. *)
Lemma many_taken (cls : ascii -> bool) k (s g : string) r :
  Re.many cls k s = Some (g, r) -> Text.all_chars cls g = true.
Proof.
  revert g. induction s as [|c s IH]; intros g H.
  - cbn in H. unfold Re.stop in H. destruct (k ""); [|discriminate].
    now injection H as <- _.
  - cbn [Re.many] in H.
    assert (Hstop : Re.stop k (String c s) = Some (g, r) ->
                    Text.all_chars cls g = true).
    { unfold Re.stop. destruct (k (String c s)); [|discriminate].
      now intros [= <- _]. }
    destruct (cls c) eqn:Hc; [|auto].
    destruct (Re.many cls k s) as [[g' r']|]; [|auto].
    injection H as <- <-. cbn. now rewrite Hc, (IH g' eq_refl).
Qed.

Lemma many1_taken (cls : ascii -> bool) k (s g : string) r :
  Re.many1 cls k s = Some (g, r) ->
  Text.all_chars cls g = true /\ g <> EmptyString.
Proof.
  destruct s as [|c s]; [discriminate|]. cbn.
  destruct (cls c) eqn:Hc; [|discriminate].
  destruct (Re.many cls k s) as [[g' r']|] eqn:E; [|discriminate].
  intros [= <- <-]. cbn. rewrite Hc, (many_taken _ _ _ _ _ E).
  split; [reflexivity | discriminate].
Qed.

Lemma paren_here (w : string) :
  Re.match_here (Re.lits ")") w
  = match w with
    | String c w' => if Ascii.eqb ")" c then Some ([], w') else None
    | EmptyString => None
    end.
Proof. destruct w; reflexivity. Qed.

(** The last group runs up to the last closing parenthesis of the line. *)
Lemma many_paren_none (w : string) :
  Text.all_chars Re.any_char w = true ->
  Re.many Re.any_char (Re.match_here (Re.lits ")")) w = None ->
  Text.all_chars not_paren w = true.
Proof.
  induction w as [|c w IH]; [reflexivity|]. cbn [Text.all_chars Re.many].
  intros Hw Hn. apply andb_prop in Hw as [Hc Hw]. rewrite Hc in Hn.
  destruct (Re.many Re.any_char _ w) as [[g' r']|] eqn:Ew; [discriminate|].
  rewrite (IH Hw eq_refl), andb_true_r.
  unfold Re.stop in Hn. rewrite paren_here in Hn. unfold not_paren.
  destruct (Ascii.eqb ")" c) eqn:Ec; [discriminate|].
  now rewrite Ascii.eqb_sym, Ec.
Qed.

Lemma many_paren_last (u t : string) caps rest :
  Re.many Re.any_char (Re.match_here (Re.lits ")")) u = Some (t, (caps, rest)) ->
  Text.all_chars Re.any_char rest = true ->
  Text.all_chars not_paren rest = true.
Proof.
  revert t. induction u as [|c w IH]; intros t E Hr.
  - cbn in E. discriminate.
  - cbn [Re.many] in E.
    assert (Hstop : Re.stop (Re.match_here (Re.lits ")")) (String c w)
                    = Some (t, (caps, rest)) ->
                    Re.many Re.any_char (Re.match_here (Re.lits ")")) w = None ->
                    Text.all_chars not_paren rest = true).
    { unfold Re.stop. rewrite paren_here.
      destruct (Ascii.eqb ")" c); [|discriminate].
      intros [= _ _ <-]. now apply many_paren_none. }
    destruct (Re.any_char c) eqn:Hc.
    + destruct (Re.many Re.any_char _ w) as [[g' [c' r']]|] eqn:Ew.
      * injection E as _ <- <-. now apply (IH g').
      * now apply Hstop.
    + unfold Re.stop in E. rewrite paren_here in E.
      destruct (Ascii.eqb ")" c) eqn:Ec; [|discriminate].
      apply Ascii.eqb_eq in Ec. subst c. cbv in Hc. discriminate.
Qed.

(** A match of the record pattern, with what its groups can hold. *)
Lemma match_here_fields (ty : RecordType) (s : string) caps rest :
  Re.match_here (record_pattern ty) s = Some (caps, rest) ->
  exists v f sr t,
    s = (type_str ty ++ ": " ++ v ++ " (flags=" ++ f ++ ", serial=" ++ sr
         ++ ", ttl=" ++ t ++ ")" ++ rest)%string
    /\ caps = [v; f; sr; t]
    /\ Samba.numeric v = true
    /\ Text.all_chars Re.any_char f = true
    /\ Text.all_chars Re.any_char sr = true
    /\ Text.all_chars Re.any_char t = true
    /\ (Text.all_chars Re.any_char rest = true ->
        Text.all_chars not_paren rest = true).
Proof.
  unfold record_pattern. intros H.
  apply match_here_lits_inv in H as (u1 & -> & H).
  apply match_here_lits_inv in H as (u2 & -> & H).
  cbn [app Re.match_here] in H.
  destruct (Re.many1 _ _ u2) as [[v [c1 r1]]|] eqn:E1; [|discriminate].
  injection H as <- <-.
  destruct (many1_taken _ _ _ _ _ E1) as [Hv Hvne].
  apply many1_inv in E1 as (u3 & -> & H).
  apply match_here_lits_inv in H as (u4 & -> & H).
  cbn [app Re.match_here] in H.
  destruct (Re.many _ _ u4) as [[f [c2 r2]]|] eqn:E2; [|discriminate].
  injection H as <- <-.
  pose proof (many_taken _ _ _ _ _ E2) as Hf.
  apply many_inv in E2 as (u5 & -> & H).
  apply match_here_lits_inv in H as (u6 & -> & H).
  cbn [app Re.match_here] in H.
  destruct (Re.many _ _ u6) as [[sr [c3 r3]]|] eqn:E3; [|discriminate].
  injection H as <- <-.
  pose proof (many_taken _ _ _ _ _ E3) as Hsr.
  apply many_inv in E3 as (u7 & -> & H).
  apply match_here_lits_inv in H as (u8 & -> & H).
  cbn [app Re.match_here] in H.
  destruct (Re.many _ _ u8) as [[t [c4 r4]]|] eqn:E4; [|discriminate].
  injection H as <- <-.
  pose proof (many_taken _ _ _ _ _ E4) as Ht.
  pose proof (many_paren_last _ _ _ _ E4) as Hlast.
  apply many_inv in E4 as (u9 & -> & H).
  rewrite <- (app_nil_r (Re.lits ")")) in H.
  apply match_here_lits_inv in H as (u10 & -> & H).
  cbn in H. injection H as <- <-.
  exists v, f, sr, t.
  split; [reflexivity|]. split; [reflexivity|].
  split; [|split; [exact Hf | split; [exact Hsr | split; [exact Ht | exact Hlast]]]].
  unfold Samba.numeric. rewrite Hv. apply String.eqb_neq in Hvne.
  now rewrite Hvne.
Qed.

(** Every group list of [findall] is a match somewhere in the text. *)
Lemma findall_from_sound (p : Re.regex) (s : string) :
  forall k caps,
    In caps (Re.findall_from p k s) ->
    exists pre u rest,
      s = (pre ++ u)%string /\ Re.match_here p u = Some (caps, rest).
Proof.
  induction s as [|c s IH]; intros k caps H.
  - destruct k; [|contradiction]. cbn in H.
    destruct (Re.match_here p "") as [[caps' rest]|] eqn:E; [|contradiction].
    destruct H as [<-|[]]. exists "", "", rest. auto.
  - destruct k as [|k]; cbn [Re.findall_from] in H.
    + destruct (Re.match_here p (String c s)) as [[caps' rest]|] eqn:E.
      * destruct H as [<-|H].
        -- exists "", (String c s), rest. auto.
        -- apply IH in H as (pre & u & r & -> & Hm).
           exists (String c pre), u, r. auto.
      * apply IH in H as (pre & u & r & -> & Hm).
        exists (String c pre), u, r. auto.
    + apply IH in H as (pre & u & r & -> & Hm).
      exists (String c pre), u, r. auto.
Qed.

(** The text a match leaves is the end of the text it was given. *)
Lemma match_here_suffix (p : Re.regex) :
  forall s caps rest,
    Re.match_here p s = Some (caps, rest) ->
    exists m, s = (m ++ rest)%string.
Proof.
  induction p as [|a p IH]; intros s caps rest H.
  - cbn in H. injection H as _ <-. exists "". reflexivity.
  - destruct a as [c|cls|cls]; cbn [Re.match_here] in H.
    + destruct s as [|c' s]; [discriminate|].
      destruct (Ascii.eqb c c'); [|discriminate].
      apply IH in H as (m & ->). exists (String c' m). reflexivity.
    + destruct (Re.many cls _ s) as [[g [caps' rest']]|] eqn:E; [|discriminate].
      injection H as _ <-. apply many_inv in E as (u & -> & H).
      apply IH in H as (m & ->). exists (g ++ m)%string.
      now rewrite append_assoc.
    + destruct (Re.many1 cls _ s) as [[g [caps' rest']]|] eqn:E; [|discriminate].
      injection H as _ <-. apply many1_inv in E as (u & -> & H).
      apply IH in H as (m & ->). exists (g ++ m)%string.
      now rewrite append_assoc.
Qed.

(** Texts are a line, or a line, a line feed and a text. *)
Lemma text_cases (P : string -> Prop) :
  (forall l, Text.all_chars Re.any_char l = true -> P l) ->
  (forall l rest, Text.all_chars Re.any_char l = true -> P rest ->
                  P (l ++ String Text.LF rest)%string) ->
  forall out, P out.
Proof.
  intros Hline Hstep out.
  assert (H : forall pre, Text.all_chars Re.any_char pre = true ->
                          P (pre ++ out)%string).
  { induction out as [|c out IH]; intros pre Hpre.
    - rewrite append_nil_r. now apply Hline.
    - destruct (Ascii.eqb c Text.LF) eqn:Hc.
      + apply Ascii.eqb_eq in Hc. subst c. apply Hstep; [exact Hpre|].
        exact (IH "" eq_refl).
      + change (String c out) with (String c "" ++ out)%string.
        rewrite <- append_assoc. apply IH.
        rewrite all_chars_append, Hpre. cbn. unfold Re.any_char.
        now rewrite Hc. }
  exact (H "" eq_refl).
Qed.

Lemma split_lines_plain (l : string) :
  Text.all_chars Re.any_char l = true -> Text.split_lines l = [l].
Proof.
  induction l as [|c l IH]; [reflexivity|]. cbn [Text.all_chars Text.split_lines].
  intros H. apply andb_prop in H as [Hc Hl].
  unfold Re.any_char in Hc. apply negb_true_iff in Hc.
  now rewrite Hc, (IH Hl).
Qed.

Lemma split_lines_app (l rest : string) :
  Text.all_chars Re.any_char l = true ->
  Text.split_lines (l ++ String Text.LF rest) = l :: Text.split_lines rest.
Proof.
  induction l as [|c l IH]; [reflexivity|].
  cbn [Text.all_chars Text.split_lines append].
  intros H. apply andb_prop in H as [Hc Hl].
  unfold Re.any_char in Hc. apply negb_true_iff in Hc.
  now rewrite Hc, (IH Hl).
Qed.

Lemma split_lines_no_LF (out : string) :
  Forall (fun l => Text.all_chars Re.any_char l = true) (Text.split_lines out).
Proof.
  induction out as [l Hl | l rest Hl IH] using text_cases.
  - rewrite (split_lines_plain l Hl). auto.
  - rewrite (split_lines_app l rest Hl). auto.
Qed.

(** The scan of a text is the scan of its first line, then the scan of
    what follows the line feed. *)
Lemma findall_line_app (p : Re.regex) (l rest : string) :
  forallb Re.refuses_LF p = true ->
  Text.all_chars Re.any_char l = true ->
  forall k, k <= String.length l ->
    Re.findall_from p k (l ++ String Text.LF rest)
    = Re.findall_from p k l ++ Re.findall_from p 0 rest.
Proof.
  intros Hp. induction l as [|c l IH]; intros Hl k Hk.
  - assert (k = 0) by (cbn in Hk; lia). subst k.
    pose proof (match_here_local (String Text.LF rest) eq_refl p Hp "" eq_refl)
      as Hloc.
    cbn [append] in Hloc |- *. cbn [Re.findall_from]. rewrite Hloc.
    destruct (Re.match_here p "") as [[caps r0]|]; cbn [Re.extend app];
      [|reflexivity].
    f_equal. rewrite length_append. cbn [String.length].
    replace (String.length rest - (String.length r0 + S (String.length rest)))
      with 0 by lia.
    reflexivity.
  - pose proof (match_here_local (String Text.LF rest) eq_refl p Hp _ Hl) as Hloc.
    cbn in Hl. apply andb_prop in Hl as [_ Hl]. specialize (IH Hl).
    destruct k as [|k]; cbn [append Re.findall_from].
    + cbn [append] in Hloc. rewrite Hloc.
      destruct (Re.match_here p (String c l)) as [[caps r0]|];
        cbn [Re.extend app].
      * f_equal. rewrite !length_append.
        replace (String.length l + String.length (String Text.LF rest)
                 - (String.length r0 + String.length (String Text.LF rest)))
          with (String.length l - String.length r0) by lia.
        apply IH. lia.
      * apply IH. lia.
    + apply IH. cbn in Hk. lia.
Qed.

Lemma findall_by_lines (p : Re.regex) (out : string) :
  forallb Re.refuses_LF p = true ->
  Re.findall p out = flat_map (Re.findall p) (Text.split_lines out).
Proof.
  intros Hp. unfold Re.findall.
  induction out as [l Hl | l rest Hl IH] using text_cases.
  - rewrite (split_lines_plain l Hl). cbn. now rewrite app_nil_r.
  - rewrite (split_lines_app l rest Hl). cbn [flat_map].
    rewrite (findall_line_app p l rest Hp Hl 0) by lia.
    now rewrite IH.
Qed.

(** Without a closing parenthesis there is no record. *)
Lemma no_paren_no_match (ty : RecordType) (w : string) :
  Text.all_chars not_paren w = true ->
  Re.match_here (record_pattern ty) w = None.
Proof.
  intros Hw.
  destruct (Re.match_here (record_pattern ty) w) as [[caps rest]|] eqn:E;
    [|reflexivity].
  apply match_here_shape in E as (v & f & sr & t & -> & _).
  rewrite !all_chars_append in Hw.
  do 9 (apply andb_prop in Hw as [_ Hw]).
  apply andb_prop in Hw as [Hw _]. cbv in Hw. discriminate.
Qed.

Lemma no_paren_no_findall (ty : RecordType) (w : string) :
  Text.all_chars not_paren w = true ->
  forall k, Re.findall_from (record_pattern ty) k w = [].
Proof.
  induction w as [|c w IH]; intros Hw k.
  - destruct k; [|reflexivity]. cbn [Re.findall_from].
    now rewrite (no_paren_no_match ty "" eq_refl).
  - destruct k as [|k]; cbn [Re.findall_from].
    + rewrite (no_paren_no_match ty _ Hw).
      cbn in Hw. apply andb_prop in Hw as [_ Hw]. now apply IH.
    + cbn in Hw. apply andb_prop in Hw as [_ Hw]. now apply IH.
Qed.

(** One line holds one record at most. *)
Lemma findall_line_once (ty : RecordType) (l : string) :
  Text.all_chars Re.any_char l = true ->
  forall k, List.length (Re.findall_from (record_pattern ty) k l) <= 1.
Proof.
  induction l as [|c l IH]; intros Hl k.
  - destruct k; cbn [Re.findall_from]; [|cbn; lia].
    rewrite (no_paren_no_match ty "" eq_refl). cbn; lia.
  - pose proof Hl as Hcl. cbn in Hl. apply andb_prop in Hl as [_ Hl].
    destruct k as [|k]; cbn [Re.findall_from]; [|now apply IH].
    destruct (Re.match_here (record_pattern ty) (String c l))
      as [[caps rest]|] eqn:E; [|now apply IH].
    destruct (match_here_suffix _ _ _ _ E) as (m & Hm).
    destruct (match_here_fields _ _ _ _ E)
      as (v & f & sr & t & _ & _ & _ & _ & _ & _ & Hrest).
    assert (Hnp : Text.all_chars not_paren rest = true).
    { apply Hrest. rewrite Hm, all_chars_append in Hcl.
      now apply andb_prop in Hcl as [_ Hcl]. }
    cbn [List.length]. apply le_n_S, Nat.le_0_r, length_zero_iff_nil.
    destruct m as [|c' m].
    + cbn [append] in Hm. subst rest.
      cbn in Hnp. apply andb_prop in Hnp as [_ Hnp].
      now apply no_paren_no_findall.
    + injection Hm as _ ->. rewrite length_append, Nat.add_sub.
      rewrite findall_from_skip. now apply no_paren_no_findall.
Qed.

Lemma flat_map_short {T U : Type} (f : T -> list U) (ls : list T) :
  Forall (fun l => List.length (f l) <= 1) ls ->
  List.length (flat_map f ls) <= List.length ls.
Proof.
  induction 1 as [|l ls Hl _ IH]; cbn; [lia|].
  rewrite length_app. lia.
Qed.

Lemma map_flat_map {T U V : Type} (f : U -> V) (g : T -> list U) (l : list T) :
  map f (flat_map g l) = flat_map (fun x => map f (g x)) l.
Proof.
  induction l as [|x l IH]; [reflexivity|]. cbn. now rewrite map_app, IH.
Qed.

(** A record the parser returns stands in the text, in the record
    layout, and its value is a run of digits and dots. *)
Lemma parse_records_sound (ty : RecordType) (out : string) (rec : ExistingRecord) :
  In rec (parse_records ty out) ->
  exists pre v f sr t post,
    out = (pre ++ type_str ty ++ ": " ++ v ++ " (flags=" ++ f ++ ", serial="
           ++ sr ++ ", ttl=" ++ t ++ ")" ++ post)%string
    /\ rec = (v, f, sr, t)
    /\ Samba.numeric v = true
    /\ Text.all_chars Re.any_char f = true
    /\ Text.all_chars Re.any_char sr = true
    /\ Text.all_chars Re.any_char t = true.
Proof.
  unfold parse_records, Re.findall. intros H.
  apply in_map_iff in H as (caps & <- & H).
  apply findall_from_sound in H as (pre & u & rest & -> & H).
  apply match_here_fields in H
    as (v & f & sr & t & -> & -> & Hv & Hf & Hsr & Ht & _).
  exists pre, v, f, sr, t, rest. repeat split; assumption.
Qed.

Lemma parse_records_numeric (ty : RecordType) (out : string) (v : string) :
  Text.mem v (map item0 (parse_records ty out)) = true ->
  Samba.numeric v = true.
Proof.
  unfold Text.mem. intros H. apply existsb_exists in H as (x & Hx & Hv).
  apply String.eqb_eq in Hv. subst x.
  apply in_map_iff in Hx as (rec & <- & Hrec).
  apply parse_records_sound in Hrec
    as (pre & v & f & sr & t & post & _ & -> & Hv & _).
  exact Hv.
Qed.

(** X1. Every record [get_exist_dns] returns was printed by the tool on a
    zero exit: its four fields stand in stdout in the record layout,
    after the name of the requested type, the value is a non-empty run
    of digits and dots, and flags, serial and ttl hold no line feed. *)
Theorem get_exist_dns_only_printed_records :
  forall (World : Type) (tool : list string -> World -> Response * World)
         (self : SambaToolDNS) (record : string) (type : RecordType)
         (s s' : Sys World) (recs : list ExistingRecord) (rec : ExistingRecord),
    get_exist_dns tool self record type s = (Ret recs, s') ->
    In rec recs ->
    exists out err pre v f sr t post,
      fst (tool (query_cmd self record type) (world s)) = (0%Z, Some out, err)
      /\ out = (pre ++ type_str type ++ ": " ++ v ++ " (flags=" ++ f
                ++ ", serial=" ++ sr ++ ", ttl=" ++ t ++ ")" ++ post)%string
      /\ rec = (v, f, sr, t)
      /\ Samba.numeric v = true
      /\ Text.all_chars Re.any_char f = true
      /\ Text.all_chars Re.any_char sr = true
      /\ Text.all_chars Re.any_char t = true.
Proof.
  intros World tool self record type s s' recs rec Hrun Hin.
  destruct (tool (query_cmd self record type) (world s))
    as [[[rc out] err] w'] eqn:E.
  rewrite (get_exist_dns_run tool _ _ _ _ _ _ _ _ E) in Hrun.
  destruct (Text.contains ZONE_DOES_NOT_EXIST err); [discriminate|].
  destruct (negb (rc =? 0)%Z || Text.contains NAME_DOES_NOT_EXIST err) eqn:Hc.
  { injection Hrun as <- _. contradiction. }
  apply orb_false_iff in Hc as [Hrc _]. apply negb_false_iff, Z.eqb_eq in Hrc.
  subst rc. destruct out as [text|]; cbn [truthy is_not_None text_of] in Hrun.
  - rewrite orb_true_r in Hrun. injection Hrun as <- _.
    apply parse_records_sound in Hin
      as (pre & v & f & sr & t & post & Hout & Hrec & Hfields).
    exists text, err, pre, v, f, sr, t, post. cbn [fst]. auto.
  - cbn in Hrun. injection Hrun as <- _. contradiction.
Qed.

Lemma get_exist_dns_only_printed_records_witness :
  exists out err pre v f sr t post,
    fst (Sample.answering
           (0%Z, Some "    A: 10.1.1.123 (flags=f0, serial=0, ttl=1800)", "")
           (query_cmd (Sample.st (Sample.module present "10.1.1.123" A false))
                      "www" A) tt)
    = (0%Z, Some out, err)
    /\ out = (pre ++ type_str A ++ ": " ++ v ++ " (flags=" ++ f
              ++ ", serial=" ++ sr ++ ", ttl=" ++ t ++ ")" ++ post)%string
    /\ Sample.rec "10.1.1.123" = (v, f, sr, t)
    /\ Samba.numeric v = true
    /\ Text.all_chars Re.any_char f = true
    /\ Text.all_chars Re.any_char sr = true
    /\ Text.all_chars Re.any_char t = true.
Proof.
  apply (get_exist_dns_only_printed_records unit
           (Sample.answering
              (0%Z, Some "    A: 10.1.1.123 (flags=f0, serial=0, ttl=1800)", ""))
           (Sample.st (Sample.module present "10.1.1.123" A false))
           "www" A Sample.start
           {| world := tt;
              trace := [query_cmd (Sample.st (Sample.module present "10.1.1.123" A false))
                                  "www" A] |}
           [Sample.rec "10.1.1.123"] (Sample.rec "10.1.1.123")).
  - reflexivity.
  - left; reflexivity.
Defined.

(** X2. The parser reads stdout line by line: the records of a text are
    the records of its first line, then those of its second line, and so
    on; nothing is read across a line feed. *)
Theorem parse_records_line_by_line :
  forall (ty : RecordType) (out : string),
    parse_records ty out
    = flat_map (parse_records ty) (Text.split_lines out).
Proof.
  intros ty out. unfold parse_records.
  rewrite (findall_by_lines _ out (record_pattern_refuses_LF ty)).
  apply map_flat_map.
Qed.

(** X3. A line of stdout gives one record at most, however many record
    layouts it holds, so the parser never returns more records than
    stdout has lines. *)
Theorem parse_records_one_per_line :
  forall (ty : RecordType) (out : string),
    Forall (fun l => List.length (parse_records ty l) <= 1)
           (Text.split_lines out)
    /\ List.length (parse_records ty out) <= List.length (Text.split_lines out).
Proof.
  intros ty out.
  assert (H : Forall (fun l => List.length (parse_records ty l) <= 1)
                     (Text.split_lines out)).
  { eapply Forall_impl; [|apply split_lines_no_LF].
    intros l Hl. unfold parse_records, Re.findall. rewrite length_map.
    now apply findall_line_once. }
  split; [exact H|].
  unfold parse_records at 1.
  rewrite length_map, (findall_by_lines _ out (record_pattern_refuses_LF ty)).
  apply flat_map_short.
  eapply Forall_impl; [|exact H].
  intros l Hl. unfold parse_records in Hl. now rewrite length_map in Hl.
Qed.

(** X4. Reading back what the tool prints: when the query exits with
    zero, its stderr holds neither marker and its stdout is the header
    line and one line per address in the layout of the comment of lines
    176 to 181, [get_exist_dns] returns exactly these addresses, in the
    order printed, each with flags f0, serial 0 and ttl 1800. *)
Theorem get_exist_dns_reads_back_addresses :
  forall (World : Type) (tool : list string -> World -> Response * World)
         (self : SambaToolDNS) (record : string) (type : RecordType)
         (s : Sys World) (vs : list string) (err : string) (w' : World),
    forallb Samba.numeric vs = true ->
    tool (query_cmd self record type) (world s)
    = ((0%Z, Some (Samba.query_stdout (type_str type) vs), err), w') ->
    Text.contains ZONE_DOES_NOT_EXIST err = false ->
    Text.contains NAME_DOES_NOT_EXIST err = false ->
    fst (get_exist_dns tool self record type s)
    = Ret (map (fun v => (v, "f0", "0", "1800")) vs).
Proof.
  intros World tool self record type s vs err w' Hvs E Hz Hn.
  rewrite (get_exist_dns_run tool _ _ _ _ _ _ _ _ E), Hz, Hn.
  cbn [fst Z.eqb negb orb truthy is_not_None text_of]. rewrite orb_true_r.
  now rewrite (parse_records_query_stdout type vs Hvs).
Qed.

Lemma get_exist_dns_reads_back_addresses_witness :
  fst (get_exist_dns
         (Sample.answering
            (0%Z, Some (Samba.query_stdout "A" ["10.1.1.123"; "10.1.1.124"]), ""))
         (Sample.st (Sample.module present "10.1.1.123" A false))
         "www" A Sample.start)
  = Ret [("10.1.1.123", "f0", "0", "1800"); ("10.1.1.124", "f0", "0", "1800")].
Proof.
  apply (get_exist_dns_reads_back_addresses unit
           (Sample.answering
              (0%Z, Some (Samba.query_stdout "A" ["10.1.1.123"; "10.1.1.124"]), ""))
           (Sample.st (Sample.module present "10.1.1.123" A false))
           "www" A Sample.start ["10.1.1.123"; "10.1.1.124"] "" tt);
    reflexivity.
Defined.


(** * More on whole runs *)

Section WholeRuns.
Context {World : Type}.
Variable tool : list string -> World -> Response * World.

(** With the executable found, [main] is the query followed by the
    decision, on the object [__init__] has built. *)
Lemma main_found (module : AnsibleModule) (s : Sys World) (path : string) :
  get_bin_path module "samba-tool" = Some path ->
  main tool module s
  = match get_exist_dns tool (built module path) (record (params module))
                        (type (params module)) s with
    | (Ret recs, s1) => main_reconcile tool module (built module path) recs s1
    | (Stop e, s1) => (Stop e, s1)
    end.
Proof.
  intros H. unfold main, bind, SambaToolDNS_init. rewrite H. reflexivity.
Qed.

(** The decision always ends the run. *)
Lemma main_reconcile_stops (module : AnsibleModule) (st : SambaToolDNS)
      (recs : list ExistingRecord) (s : Sys World) :
  exists e, fst (main_reconcile tool module st recs s) = Stop e.
Proof.
  destruct (state (params module)) eqn:Hst.
  - rewrite (main_reconcile_present tool _ _ _ _ Hst).
    destruct (existsb _ recs); [eexists; reflexivity|].
    destruct (check_mode module); [eexists; reflexivity|].
    destruct (manage_dns tool st _ _ _ "add" s) as [[[]|e] s'];
      eexists; reflexivity.
  - rewrite (main_reconcile_absent tool _ _ _ _ Hst).
    destruct recs as [|r recs]; [eexists; reflexivity|].
    destruct (Text.mem _ _); [|eexists; reflexivity].
    destruct (check_mode module); [eexists; reflexivity|].
    destruct (manage_dns tool st _ _ _ "delete" s) as [[[]|e] s'];
      eexists; reflexivity.
Qed.

(** In check mode the decision runs nothing. *)
Lemma main_reconcile_dry (module : AnsibleModule) (st : SambaToolDNS)
      (recs : list ExistingRecord) (s : Sys World) :
  check_mode module = true ->
  snd (main_reconcile tool module st recs s) = s.
Proof.
  intros Hmode. destruct (state (params module)) eqn:Hst.
  - rewrite (main_reconcile_present tool _ _ _ _ Hst), Hmode.
    destruct (existsb _ recs); reflexivity.
  - rewrite (main_reconcile_absent tool _ _ _ _ Hst), Hmode.
    destruct recs as [|r recs]; [reflexivity|].
    destruct (Text.mem _ _); reflexivity.
Qed.

(** What the decision runs, and what it reports changed only after. *)
Lemma main_reconcile_outcome (module : AnsibleModule) (st : SambaToolDNS)
      (recs : list ExistingRecord) (s : Sys World) :
  let m := manage_cmd st (record (params module)) (value (params module))
                      (type (params module)) (action_for (state (params module))) in
  (snd (main_reconcile tool module st recs s) = s
   /\ (check_mode module = false ->
       forall e, fst (main_reconcile tool module st recs s) = Stop e ->
                 is_changed e = false))
  \/ (check_mode module = false
      /\ snd (main_reconcile tool module st recs s)
         = {| world := snd (tool m (world s)); trace := trace s ++ [m] |}
      /\ (forall e, fst (main_reconcile tool module st recs s) = Stop e ->
                    is_changed e = true ->
                    rc_of (fst (tool m (world s))) = 0%Z)).
Proof.
  intros m. subst m. destruct (state (params module)) eqn:Hst; cbn [action_for].
  - rewrite (main_reconcile_present tool _ _ _ _ Hst).
    destruct (existsb _ recs).
    { left. split; [reflexivity|]. intros _ e [= <-]. reflexivity. }
    destruct (check_mode module).
    { left. split; [reflexivity|]. discriminate. }
    right. split; [reflexivity|].
    destruct (tool (manage_cmd st (record (params module)) (value (params module))
                               (type (params module)) "add") (world s))
      as [[[rc out] err] w'] eqn:E.
    rewrite (manage_dns_run tool st _ _ _ "add" s rc out err w' eq_refl E).
    cbn [snd fst rc_of].
    destruct (rc =? 0)%Z eqn:Hrc;
      destruct (Text.contains RECORD_ALREADY_EXISTS err);
      cbn [String.eqb Ascii.eqb Bool.eqb negb andb fst snd];
      (split; [reflexivity|]); intros e [= <-] Hch;
      try discriminate; now apply Z.eqb_eq.
  - rewrite (main_reconcile_absent tool _ _ _ _ Hst).
    destruct recs as [|r recs].
    { left. split; [reflexivity|]. intros _ e [= <-]. reflexivity. }
    destruct (Text.mem _ _).
    2:{ left. split; [reflexivity|]. intros _ e [= <-]. reflexivity. }
    destruct (check_mode module).
    { left. split; [reflexivity|]. discriminate. }
    right. split; [reflexivity|].
    destruct (tool (manage_cmd st (record (params module)) (value (params module))
                               (type (params module)) "delete") (world s))
      as [[[rc out] err] w'] eqn:E.
    rewrite (manage_dns_run tool st _ _ _ "delete" s rc out err w' eq_refl E).
    cbn [snd fst rc_of].
    destruct (rc =? 0)%Z eqn:Hrc;
      cbn [String.eqb Ascii.eqb Bool.eqb negb andb fst snd];
      (split; [reflexivity|]); intros e [= <-] Hch;
      try discriminate; now apply Z.eqb_eq.
Qed.

(** The query adds itself to the trace, whatever comes of it. *)
Lemma get_exist_dns_trace (self : SambaToolDNS) (record : string)
      (type : RecordType) (s : Sys World) :
  snd (get_exist_dns tool self record type s)
  = {| world := snd (tool (query_cmd self record type) (world s));
       trace := trace s ++ [query_cmd self record type] |}.
Proof.
  destruct (tool (query_cmd self record type) (world s))
    as [[[rc out] err] w'] eqn:E.
  now rewrite (get_exist_dns_run tool _ _ _ _ _ _ _ _ E).
Qed.

Lemma issued_two (s : Sys World) w (a b : list string) :
  issued s {| world := w; trace := (trace s ++ [a]) ++ [b] |} = [a; b].
Proof. rewrite <- app_assoc. apply issued_app. Qed.

End WholeRuns.

Section WholeRunFacts.
Context {World : Type}.
Variable tool : list string -> World -> Response * World.

(** When the query ends the run, it is a failure. *)
Lemma get_exist_dns_stop (self : SambaToolDNS) (record : string)
      (type : RecordType) (s s1 : Sys World) (e : Exit) :
  get_exist_dns tool self record type s = (Stop e, s1) ->
  e = FailJson (kw_msg ("Zone " ++ self_zone self ++ " does not exists.")%string)
  /\ Text.contains ZONE_DOES_NOT_EXIST
       (let '(_, _, err) := fst (tool (query_cmd self record type) (world s)) in err)
     = true.
Proof.
  destruct (tool (query_cmd self record type) (world s))
    as [[[rc out] err] w'] eqn:E.
  rewrite (get_exist_dns_run tool _ _ _ _ _ _ _ _ E). cbn [fst].
  destruct (Text.contains ZONE_DOES_NOT_EXIST err); [now intros [= <- _]|].
  destruct (negb (rc =? 0)%Z || Text.contains NAME_DOES_NOT_EXIST err);
    [discriminate|].
  destruct (truthy out || is_not_None out); discriminate.
Qed.

(** A value the query returns is a run of digits and dots. *)
Lemma get_exist_dns_numeric (self : SambaToolDNS) (record : string)
      (type : RecordType) (s s1 : Sys World) (recs : list ExistingRecord)
      (v : string) :
  get_exist_dns tool self record type s = (Ret recs, s1) ->
  Text.mem v (map item0 recs) = true ->
  Samba.numeric v = true.
Proof.
  destruct (tool (query_cmd self record type) (world s))
    as [[[rc out] err] w'] eqn:E.
  rewrite (get_exist_dns_run tool _ _ _ _ _ _ _ _ E).
  destruct (Text.contains ZONE_DOES_NOT_EXIST err); [discriminate|].
  destruct (negb (rc =? 0)%Z || Text.contains NAME_DOES_NOT_EXIST err);
    [intros [= <- _]; discriminate|].
  destruct (truthy out || is_not_None out);
    [|intros [= <- _]; discriminate].
  intros [= <- _]. apply parse_records_numeric.
Qed.

(** The three shapes of a whole run that has found the executable. *)
Lemma main_shape (module : AnsibleModule) (s : Sys World) (path : string) :
  get_bin_path module "samba-tool" = Some path ->
  let st := built module path in
  let q := query_cmd st (record (params module)) (type (params module)) in
  let m := manage_cmd st (record (params module)) (value (params module))
                      (type (params module)) (action_for (state (params module))) in
  let w1 := snd (tool q (world s)) in
  (issued s (snd (main tool module s)) = [q]
   /\ world (snd (main tool module s)) = w1
   /\ (check_mode module = false ->
       forall e, fst (main tool module s) = Stop e -> is_changed e = false))
  \/ (check_mode module = false
      /\ issued s (snd (main tool module s)) = [q; m]
      /\ world (snd (main tool module s)) = snd (tool m w1)
      /\ (forall e, fst (main tool module s) = Stop e -> is_changed e = true ->
                    rc_of (fst (tool m w1)) = 0%Z)).
Proof.
  intros Hpath st q m w1. rewrite (main_found tool module s path Hpath).
  fold st. pose proof (get_exist_dns_trace tool st (record (params module))
                         (type (params module)) s) as Ht.
  fold q in Ht. fold w1 in Ht.
  destruct (get_exist_dns tool st (record (params module))
                          (type (params module)) s) as [[recs|e] s1] eqn:G;
    cbn [snd] in Ht; subst s1.
  - destruct (main_reconcile_outcome tool module st recs
                {| world := w1; trace := trace s ++ [q] |})
      as [[Hs Hch] | (Hmode & Hs & Hrc)].
    + left. rewrite Hs. split; [apply issued_app|]. split; [reflexivity|].
      exact Hch.
    + right. split; [exact Hmode|]. fold st in Hs, Hrc. fold m in Hs, Hrc.
      cbn [world trace] in Hs, Hrc. rewrite Hs.
      split; [apply issued_two|]. split; [reflexivity | exact Hrc].
  - left. cbn [fst snd]. split; [apply issued_app|]. split; [reflexivity|].
    intros _ e' [= <-]. apply get_exist_dns_stop in G as [-> _]. reflexivity.
Qed.

End WholeRunFacts.

(** X5. With [state=absent] and a value that is not a non-empty run of
    digits and dots (a name, an IPv6 address, a text), a run never issues
    a [delete], whatever the tool answers: it issues the query only and
    never reports a change. *)
Theorem absent_value_outside_pattern_never_deleted :
  forall (World : Type) (tool : list string -> World -> Response * World)
         (module : AnsibleModule) (s : Sys World) (path : string),
    get_bin_path module "samba-tool" = Some path ->
    state (params module) = absent ->
    Samba.numeric (value (params module)) = false ->
    issued s (snd (main tool module s))
    = [query_cmd (built module path) (record (params module))
                 (type (params module))]
    /\ forall e, fst (main tool module s) = Stop e -> is_changed e = false.
Proof.
  intros World tool module s path Hpath Hst Hv.
  rewrite (main_found tool module s path Hpath).
  pose proof (get_exist_dns_trace tool (built module path) (record (params module))
                (type (params module)) s) as Ht.
  destruct (get_exist_dns tool (built module path) (record (params module))
                          (type (params module)) s) as [[recs|e] s1] eqn:G;
    cbn [snd] in Ht; subst s1.
  - assert (Hmem : Text.mem (value (params module)) (map item0 recs) = false).
    { destruct (Text.mem _ _) eqn:Hm; [|reflexivity].
      rewrite (get_exist_dns_numeric tool _ _ _ _ _ _ _ G Hm) in Hv.
      discriminate. }
    rewrite (main_reconcile_absent tool _ _ _ _ Hst), Hmem.
    destruct recs as [|r recs]; cbn [fst snd];
      (split; [apply issued_app | intros e [= <-]; reflexivity]).
  - cbn [fst snd]. split; [apply issued_app|].
    intros e' [= <-]. apply get_exist_dns_stop in G as [-> _]. reflexivity.
Qed.

Lemma absent_value_outside_pattern_never_deleted_witness :
  let tool := Sample.answering
                (0%Z, Some (Samba.query_stdout "CNAME" ["www.example.com"]), "") in
  let module := Sample.module absent "www.example.com" CNAME false in
  issued Sample.start (snd (main tool module Sample.start))
  = [query_cmd (built module "/usr/bin/samba-tool") "www" CNAME]
  /\ forall e, fst (main tool module Sample.start) = Stop e -> is_changed e = false.
Proof.
  apply (absent_value_outside_pattern_never_deleted unit
           (Sample.answering
              (0%Z, Some (Samba.query_stdout "CNAME" ["www.example.com"]), ""))
           (Sample.module absent "www.example.com" CNAME false)
           Sample.start "/usr/bin/samba-tool");
    reflexivity.
Defined.

(** X6. With [state=present], outside check mode, a value that is not a
    non-empty run of digits and dots is never found among the records:
    unless the query reports a missing zone, the run always issues the
    [add], whatever the tool has printed. *)
Theorem present_value_outside_pattern_always_added :
  forall (World : Type) (tool : list string -> World -> Response * World)
         (module : AnsibleModule) (s : Sys World) (path : string)
         rc out err w',
    get_bin_path module "samba-tool" = Some path ->
    state (params module) = present ->
    check_mode module = false ->
    Samba.numeric (value (params module)) = false ->
    tool (query_cmd (built module path) (record (params module))
                    (type (params module))) (world s)
    = ((rc, out, err), w') ->
    Text.contains ZONE_DOES_NOT_EXIST err = false ->
    issued s (snd (main tool module s))
    = [query_cmd (built module path) (record (params module))
                 (type (params module));
       manage_cmd (built module path) (record (params module))
                  (value (params module)) (type (params module)) "add"].
Proof.
  intros World tool module s path rc out err w' Hpath Hst Hmode Hv E Hz.
  rewrite (main_found tool module s path Hpath).
  destruct (get_exist_dns tool (built module path) (record (params module))
                          (type (params module)) s) as [[recs|e] s1] eqn:G.
  - assert (Hmem : existsb (fun rec => String.eqb (item0 rec) (value (params module)))
                           recs = false).
    { rewrite <- mem_existsb. destruct (Text.mem _ _) eqn:Hm; [|reflexivity].
      rewrite (get_exist_dns_numeric tool _ _ _ _ _ _ _ G Hm) in Hv.
      discriminate. }
    pose proof (get_exist_dns_trace tool (built module path)
                  (record (params module)) (type (params module)) s) as Ht.
    rewrite G in Ht. cbn [snd] in Ht. subst s1.
    rewrite (main_reconcile_present tool _ _ _ _ Hst), Hmem, Hmode.
    destruct (tool (manage_cmd (built module path) (record (params module))
                               (value (params module)) (type (params module)) "add")
                   (snd (tool (query_cmd (built module path) (record (params module))
                                         (type (params module))) (world s))))
      as [[[rc' out'] err'] w''] eqn:E'.
    erewrite manage_dns_run; [| reflexivity | exact E'].
    cbn [trace].
    destruct (_ && _); [apply issued_two|].
    destruct (negb _); apply issued_two.
  - apply get_exist_dns_stop in G as [_ G]. rewrite E in G. cbn in G.
    congruence.
Qed.

Lemma present_value_outside_pattern_always_added_witness :
  let tool := Sample.answering
                (0%Z, Some (Samba.query_stdout "CNAME" ["www.example.com"]), "") in
  let module := Sample.module present "www.example.com" CNAME false in
  issued Sample.start (snd (main tool module Sample.start))
  = [query_cmd (built module "/usr/bin/samba-tool") "www" CNAME;
     manage_cmd (built module "/usr/bin/samba-tool") "www" "www.example.com"
                CNAME "add"].
Proof.
  apply (present_value_outside_pattern_always_added unit
           (Sample.answering
              (0%Z, Some (Samba.query_stdout "CNAME" ["www.example.com"]), ""))
           (Sample.module present "www.example.com" CNAME false)
           Sample.start "/usr/bin/samba-tool" 0%Z
           (Some (Samba.query_stdout "CNAME" ["www.example.com"])) "" tt);
    reflexivity.
Defined.

(** X7. A run always ends with a report: whatever the module, the tool
    and the world, [main] stops in [exit_json] or [fail_json] and never
    returns without one. *)
Theorem main_always_reports :
  forall (World : Type) (tool : list string -> World -> Response * World)
         (module : AnsibleModule) (s : Sys World),
    exists e, fst (main tool module s) = Stop e.
Proof.
  intros World tool module s.
  destruct (get_bin_path module "samba-tool") as [path|] eqn:Hpath.
  - rewrite (main_found tool module s path Hpath).
    destruct (get_exist_dns _ _ _ _ _) as [[recs|e] s1].
    + apply main_reconcile_stops.
    + exists e. reflexivity.
  - destruct (main_without_executable tool module s Hpath) as [kw ->].
    eexists. reflexivity.
Qed.

(** X8. In check mode a whole run issues the query and nothing else,
    whatever the tool answers, and leaves the world as the query left
    it. *)
Theorem check_mode_run_only_queries :
  forall (World : Type) (tool : list string -> World -> Response * World)
         (module : AnsibleModule) (s : Sys World) (path : string),
    get_bin_path module "samba-tool" = Some path ->
    check_mode module = true ->
    let q := query_cmd (built module path) (record (params module))
                       (type (params module)) in
    issued s (snd (main tool module s)) = [q]
    /\ world (snd (main tool module s)) = snd (tool q (world s)).
Proof.
  intros World tool module s path Hpath Hmode q.
  destruct (main_shape tool module s path Hpath)
    as [(Hi & Hw & _) | (Hreal & _)].
  - split; assumption.
  - congruence.
Qed.

Lemma check_mode_run_only_queries_witness :
  let tool := Sample.answering (0%Z, Some "", "") in
  let module := Sample.module present "10.1.1.123" A true in
  let q := query_cmd (built module "/usr/bin/samba-tool") "www" A in
  issued Sample.start (snd (main tool module Sample.start)) = [q]
  /\ world (snd (main tool module Sample.start)) = snd (tool q tt).
Proof.
  apply (check_mode_run_only_queries unit
           (Sample.answering (0%Z, Some "", ""))
           (Sample.module present "10.1.1.123" A true)
           Sample.start "/usr/bin/samba-tool");
    reflexivity.
Defined.

(** X9. Outside check mode a run reports a change only after the tool
    has accepted it: when [main] ends changed, it has issued the query
    and then the [add] (for present) or the [delete] (for absent) of the
    desired value, and that command has exited with zero. *)
Theorem changed_only_after_accepted_command :
  forall (World : Type) (tool : list string -> World -> Response * World)
         (module : AnsibleModule) (s : Sys World) (path : string) (e : Exit),
    get_bin_path module "samba-tool" = Some path ->
    check_mode module = false ->
    fst (main tool module s) = Stop e ->
    is_changed e = true ->
    let st := built module path in
    let q := query_cmd st (record (params module)) (type (params module)) in
    let m := manage_cmd st (record (params module)) (value (params module))
                        (type (params module))
                        (action_for (state (params module))) in
    issued s (snd (main tool module s)) = [q; m]
    /\ rc_of (fst (tool m (snd (tool q (world s))))) = 0%Z
    /\ world (snd (main tool module s)) = snd (tool m (snd (tool q (world s)))).
Proof.
  intros World tool module s path e Hpath Hmode He Hch st q m.
  destruct (main_shape tool module s path Hpath)
    as [(_ & _ & Hno) | (_ & Hi & Hw & Hrc)].
  - rewrite (Hno Hmode e He) in Hch. discriminate.
  - split; [exact Hi|]. split; [exact (Hrc e He Hch) | exact Hw].
Qed.

Lemma changed_only_after_accepted_command_witness :
  let tool := Sample.answering (0%Z, Some "", "") in
  let module := Sample.module present "10.1.1.123" A false in
  let st := built module "/usr/bin/samba-tool" in
  let q := query_cmd st "www" A in
  let m := manage_cmd st "www" "10.1.1.123" A "add" in
  issued Sample.start (snd (main tool module Sample.start)) = [q; m]
  /\ rc_of (fst (tool m (snd (tool q tt)))) = 0%Z
  /\ world (snd (main tool module Sample.start)) = snd (tool m (snd (tool q tt))).
Proof.
  apply (changed_only_after_accepted_command unit
           (Sample.answering (0%Z, Some "", ""))
           (Sample.module present "10.1.1.123" A false)
           Sample.start "/usr/bin/samba-tool"
           (ExitJson (kw_changed true "Record has been created")));
    reflexivity.
Defined.

(** X10. A missing zone stops the whole run before the decision: in
    either mode and for either state, when the stderr of the query holds
    the zone-does-not-exist marker, [main] fails with the zone message
    and the query is the only command it has issued. *)
Theorem main_fails_on_missing_zone :
  forall (World : Type) (tool : list string -> World -> Response * World)
         (module : AnsibleModule) (s : Sys World) (path : string)
         rc out err w',
    get_bin_path module "samba-tool" = Some path ->
    let q := query_cmd (built module path) (record (params module))
                       (type (params module)) in
    tool q (world s) = ((rc, out, err), w') ->
    Text.contains ZONE_DOES_NOT_EXIST err = true ->
    main tool module s
    = (Stop (FailJson (kw_msg ("Zone " ++ zone (params module)
                               ++ " does not exists.")%string)),
       {| world := w'; trace := trace s ++ [q] |}).
Proof.
  intros World tool module s path rc out err w' Hpath q E Hz.
  rewrite (main_found tool module s path Hpath). fold q.
  rewrite (get_exist_dns_run tool _ _ _ _ _ _ _ _ E), Hz. reflexivity.
Qed.

Lemma main_fails_on_missing_zone_witness :
  let tool := Sample.answering
                (255%Z, Some "", "ERROR: WERR_DNS_ERROR_ZONE_DOES_NOT_EXIST") in
  let module := Sample.module absent "10.1.1.123" A false in
  main tool module Sample.start
  = (Stop (FailJson (kw_msg "Zone example.com does not exists.")),
     {| world := tt;
        trace := [query_cmd (built module "/usr/bin/samba-tool") "www" A] |}).
Proof.
  apply (main_fails_on_missing_zone unit
           (Sample.answering
              (255%Z, Some "", "ERROR: WERR_DNS_ERROR_ZONE_DOES_NOT_EXIST"))
           (Sample.module absent "10.1.1.123" A false)
           Sample.start "/usr/bin/samba-tool" 255%Z (Some "")
           "ERROR: WERR_DNS_ERROR_ZONE_DOES_NOT_EXIST" tt);
    reflexivity.
Defined.

(** X11. The layout of every command a run issues: the executable,
    [dns], the subcommand, then the server, the zone, the record name and
    the type of the parameters, the value for [add] and [delete], and the
    two quoted credentials last. The subcommand is [query], or [add] when
    the state is present, or [delete] when it is absent; a run never
    issues [delete] for present nor [add] for absent, and never addresses
    another server, zone, name or value. *)
Theorem main_command_layout :
  forall (World : Type) (tool : list string -> World -> Response * World)
         (module : AnsibleModule) (s : Sys World) (path : string)
         (cmd : list string),
    get_bin_path module "samba-tool" = Some path ->
    In cmd (issued s (snd (main tool module s))) ->
    let p := params module in
    let user := ("--username='" ++ username p ++ "'")%string in
    let pass := ("--password='" ++ password p ++ "'")%string in
    cmd = [path; "dns"; "query"; server p; zone p; record p; type_str (type p);
           user; pass]
    \/ cmd = [path; "dns"; action_for (state p); server p; zone p; record p;
              type_str (type p); value p; user; pass].
Proof.
  intros World tool module s path cmd Hpath Hin p user pass.
  destruct (main_shape tool module s path Hpath)
    as [(Hi & _) | (_ & Hi & _)]; rewrite Hi in Hin.
  - destruct Hin as [<-|[]]. left. reflexivity.
  - destruct Hin as [<-|[<-|[]]]; [left | right]; reflexivity.
Qed.

Lemma main_command_layout_witness :
  let tool := Sample.answering (0%Z, Some "", "") in
  let module := Sample.module present "10.1.1.123" A false in
  let cmd := ["/usr/bin/samba-tool"; "dns"; "add"; "dc01.example.com";
              "example.com"; "www"; "A"; "10.1.1.123";
              "--username='admin.user'"; "--password='admin.password'"] in
  cmd = ["/usr/bin/samba-tool"; "dns"; "query"; "dc01.example.com";
         "example.com"; "www"; "A";
         "--username='admin.user'"; "--password='admin.password'"]
  \/ cmd = ["/usr/bin/samba-tool"; "dns"; "add"; "dc01.example.com";
            "example.com"; "www"; "A"; "10.1.1.123";
            "--username='admin.user'"; "--password='admin.password'"].
Proof.
  apply (main_command_layout unit
           (Sample.answering (0%Z, Some "", ""))
           (Sample.module present "10.1.1.123" A false)
           Sample.start "/usr/bin/samba-tool").
  - reflexivity.
  - right; left; reflexivity.
Defined.

(** X12. Without the executable nothing is run: when [get_bin_path]
    does not find samba-tool, [main] fails in [__init__] and leaves the
    trace and the world as they were. *)
Theorem main_fails_without_executable :
  forall (World : Type) (tool : list string -> World -> Response * World)
         (module : AnsibleModule) (s : Sys World),
    get_bin_path module "samba-tool" = None ->
    (exists kw, fst (main tool module s) = Stop (FailJson kw))
    /\ snd (main tool module s) = s
    /\ issued s (snd (main tool module s)) = [].
Proof.
  intros World tool module s Hpath.
  destruct (main_without_executable tool module s Hpath) as [kw ->].
  cbn [fst snd]. split; [eauto|]. split; [reflexivity | apply issued_refl].
Qed.

Lemma main_fails_without_executable_witness :
  let module := {| params := Sample.www present "10.1.1.123" A;
                   check_mode := false;
                   get_bin_path := fun _ => None |} in
  (exists kw, fst (main (Sample.answering (0%Z, Some "", "")) module Sample.start)
              = Stop (FailJson kw))
  /\ snd (main (Sample.answering (0%Z, Some "", "")) module Sample.start)
     = Sample.start
  /\ issued Sample.start
            (snd (main (Sample.answering (0%Z, Some "", "")) module Sample.start))
     = [].
Proof.
  apply (main_fails_without_executable unit
           (Sample.answering (0%Z, Some "", ""))
           {| params := Sample.www present "10.1.1.123" A;
              check_mode := false;
              get_bin_path := fun _ => None |}
           Sample.start).
  reflexivity.
Defined.

(** * More on runs on the store *)

Lemma settle_other (st : State) (u v : string) (vs : Samba.Store) :
  u <> v -> Samba.has u (Samba.settle st v vs) = Samba.has u vs.
Proof.
  intros Hne. apply String.eqb_neq in Hne.
  destruct st; unfold Samba.settle; destruct (Samba.has v vs); try reflexivity.
  - unfold Samba.has, Text.mem. rewrite existsb_app. cbn.
    now rewrite Hne, !orb_false_r.
  - unfold Samba.has, Samba.without, Text.mem.
    induction vs as [|x vs IH]; [reflexivity|]. cbn.
    destruct (String.eqb x v) eqn:E; cbn; rewrite IH; [|reflexivity].
    apply String.eqb_eq in E. subst x. now rewrite Hne.
Qed.

(** A whole run on a store of addresses, in either mode: the report, the
    store it leaves, the commands it has issued. *)
Lemma main_on_store_report (module : AnsibleModule) (path : string)
      (vs : Samba.Store) (tr : list (list string)) :
  get_bin_path module "samba-tool" = Some path ->
  forallb Samba.numeric vs = true ->
  main Samba.tool module {| world := vs; trace := tr |}
  = (Stop (ExitJson (store_report (state (params module))
                                  (value (params module)) vs)),
     {| world := if check_mode module then vs
                 else Samba.settle (state (params module))
                                   (value (params module)) vs;
        trace :=
          tr ++ query_cmd (built module path) (record (params module))
                          (type (params module))
             :: (if check_mode module
                    || Samba.satisfied (state (params module))
                                       (value (params module)) vs
                 then []
                 else [manage_cmd (built module path) (record (params module))
                                  (value (params module)) (type (params module))
                                  (action_for (state (params module)))]) |}).
Proof.
  intros Hpath Hvs. rewrite (main_found Samba.tool module _ path Hpath).
  rewrite (query_on_store (built module path) path eq_refl _ _ vs tr Hvs).
  unfold store_report, Samba.satisfied, Samba.settle.
  destruct (state (params module)) eqn:Hst; cbn [action_for].
  - erewrite main_reconcile_present by exact Hst.
    rewrite has_read_back.
    destruct (Samba.has (value (params module)) vs) eqn:Hhas.
    + rewrite orb_true_r. now destruct (check_mode module).
    + destruct (check_mode module); [reflexivity|].
      erewrite manage_dns_run;
        [| reflexivity
         | apply (add_on_store (built module path) path eq_refl); exact Hhas].
      cbn [world trace negb andb orb Z.eqb]. rewrite andb_false_r. cbn [negb].
      now rewrite <- app_assoc.
  - erewrite main_reconcile_absent by exact Hst.
    rewrite mem_existsb, has_read_back.
    destruct vs as [|v vs].
    + cbn [map Samba.has Text.mem existsb negb]. rewrite orb_true_r.
      now destruct (check_mode module).
    + cbn [map].
      destruct (Samba.has (value (params module)) (v :: vs)) eqn:Hhas;
        cbn [negb].
      * destruct (check_mode module); [reflexivity|].
        erewrite manage_dns_run;
          [| reflexivity
           | apply (delete_on_store (built module path) path eq_refl);
             exact Hhas].
        cbn [world trace negb andb orb Z.eqb String.eqb Ascii.eqb Bool.eqb].
        now rewrite <- app_assoc.
      * rewrite orb_true_r. now destruct (check_mode module).
Qed.

(** X13. A run changes nothing but the desired value. On a store of
    addresses whose tool does what it is asked, a run outside check mode
    leaves the store in the desired state, and every other value is in
    the store after the run exactly when it was there before: an [add]
    keeps the values already under the name, a [delete] takes one value
    only. *)
Theorem run_keeps_other_values :
  forall (module : AnsibleModule) (path : string) (vs : Samba.Store)
         (tr : list (list string)),
    get_bin_path module "samba-tool" = Some path ->
    check_mode module = false ->
    forallb Samba.numeric vs = true ->
    let after := world (snd (main Samba.tool module {| world := vs; trace := tr |})) in
    Samba.satisfied (state (params module)) (value (params module)) after = true
    /\ (forall u, u <> value (params module) ->
                  Samba.has u after = Samba.has u vs)
    /\ (Samba.satisfied (state (params module)) (value (params module)) vs = true ->
        after = vs).
Proof.
  intros module path vs tr Hpath Hmode Hvs after. subst after.
  rewrite (main_on_store_report module path vs tr Hpath Hvs), Hmode.
  cbn [snd world]. split; [apply settle_satisfied|].
  split; [intros u Hu; now apply settle_other | apply settle_fixed].
Qed.

Lemma run_keeps_other_values_witness :
  let module := Sample.module absent "10.1.1.123" A false in
  let after := world (snd (main Samba.tool module
                             {| world := ["10.1.1.123"; "10.1.1.124"];
                                trace := [] |})) in
  Samba.satisfied absent "10.1.1.123" after = true
  /\ (forall u, u <> "10.1.1.123" ->
                Samba.has u after = Samba.has u ["10.1.1.123"; "10.1.1.124"])
  /\ (Samba.satisfied absent "10.1.1.123" ["10.1.1.123"; "10.1.1.124"] = true ->
      after = ["10.1.1.123"; "10.1.1.124"]).
Proof.
  apply (run_keeps_other_values
           (Sample.module absent "10.1.1.123" A false)
           "/usr/bin/samba-tool" ["10.1.1.123"; "10.1.1.124"] []);
    reflexivity.
Defined.

(** X14. On a store of addresses whose tool does what it is asked, check
    mode foretells the real run: both end with the same report, changed
    exactly when the store is not yet in the desired state, and the
    check-mode run leaves the store as it found it. *)
Theorem check_mode_foretells_on_store :
  forall (module : AnsibleModule) (path : string) (vs : Samba.Store)
         (tr : list (list string)),
    get_bin_path module "samba-tool" = Some path ->
    forallb Samba.numeric vs = true ->
    let dry := main Samba.tool (with_check_mode true module)
                    {| world := vs; trace := tr |} in
    let real := main Samba.tool (with_check_mode false module)
                     {| world := vs; trace := tr |} in
    fst dry = fst real
    /\ world (snd dry) = vs
    /\ exists e, fst real = Stop e
                 /\ is_changed e
                    = negb (Samba.satisfied (state (params module))
                                            (value (params module)) vs).
Proof.
  intros module path vs tr Hpath Hvs dry real. subst dry real.
  rewrite (main_on_store_report (with_check_mode true module) path vs tr Hpath Hvs).
  rewrite (main_on_store_report (with_check_mode false module) path vs tr Hpath Hvs).
  cbn [fst snd world with_check_mode params check_mode].
  split; [reflexivity|]. split; [reflexivity|].
  eexists. split; [reflexivity|].
  unfold store_report, Samba.satisfied.
  destruct (state (params module)).
  - now destruct (Samba.has _ vs).
  - destruct vs as [|v vs]; [reflexivity|].
    now destruct (Samba.has _ (v :: vs)).
Qed.

Lemma check_mode_foretells_on_store_witness :
  let module := Sample.module present "10.1.1.124" A false in
  let dry := main Samba.tool (with_check_mode true module)
                  {| world := ["10.1.1.123"]; trace := [] |} in
  let real := main Samba.tool (with_check_mode false module)
                   {| world := ["10.1.1.123"]; trace := [] |} in
  fst dry = fst real
  /\ world (snd dry) = ["10.1.1.123"]
  /\ exists e, fst real = Stop e
               /\ is_changed e
                  = negb (Samba.satisfied present "10.1.1.124" ["10.1.1.123"]).
Proof.
  apply (check_mode_foretells_on_store
           (Sample.module present "10.1.1.124" A false)
           "/usr/bin/samba-tool" ["10.1.1.123"] []);
    reflexivity.
Defined.
